(** * The FAISS resume index of the job marketplace backend

    A shallow embedding of [backend/app/services/faiss_service.py]: the
    class [FAISSService] with its three static fields ([_index],
    [_metadata], [_id_to_index]), the two files it persists them to and
    the logger it reports to.  Python's [try]/[except] blocks are kept:
    every method is a computation in a state-and-exception monad whose
    state survives a raised exception, as the fields of the class do. *)

From Stdlib Require Import String List ZArith Bool Lia Permutation Sorted.
Import ListNotations.

Local Open Scope string_scope.
Local Open Scope list_scope.
Local Open Scope Z_scope.

(** ** 32-bit floats

    The service never computes on the components of an embedding itself:
    it hands them to the FAISS index and reads distances back
    ([float(distance)]).  The arithmetic and the comparison of the index
    are therefore an interface, and the development is generic in it.
    [fmax] is the largest finite float, [FLT_MAX]: the index fills the
    heap of its results with it, and keeps a distance that is strictly
    below it ([flt]); zero is. *)

Class Float32 : Type := {
  float : Type;
  fzero : float;
  fadd : float -> float -> float;
  fsub : float -> float -> float;
  fmul : float -> float -> float;
  fle : float -> float -> bool;
  flt : float -> float -> bool;
  fmax : float;
  fzero_lt_fmax : flt fzero fmax = true
}.

(** Integer-valued components with exact arithmetic.  Integers of small
    magnitude are float32 values and float32 arithmetic is exact on them,
    so on such inputs this instance computes what numpy and FAISS do.
    [FLT_MAX] is an integer, (2^24 - 1) * 2^104. *)
#[export] Instance ExactZ : Float32 := {|
  float := Z;
  fzero := 0;
  fadd := Z.add;
  fsub := Z.sub;
  fmul := Z.mul;
  fle := Z.leb;
  flt := Z.ltb;
  fmax := 340282346638528859811704183484516925440;
  fzero_lt_fmax := eq_refl
|}.

(** ** Python dictionaries

    A [dict] keeps its keys in insertion order; [_rebuild_index] numbers
    the entries of [_metadata] in that order, and the dict comprehension
    in [search_resumes] lets the last entry win.  Hence association
    lists, with Python's update-in-place for a key that is present. *)

Section Dict.
Context {K V : Type} (eqb : K -> K -> bool).

Definition dict := list (K * V).

Fixpoint dict_get (k : K) (m : dict) : option V :=
  match m with
  | [] => None
  | (k', v) :: m' => if eqb k k' then Some v else dict_get k m'
  end.

(** [k in m] *)
Definition dict_mem (k : K) (m : dict) : bool :=
  match dict_get k m with Some _ => true | None => false end.

(** [m[k] = v] *)
Fixpoint dict_set (k : K) (v : V) (m : dict) : dict :=
  match m with
  | [] => [(k, v)]
  | (k', v') :: m' =>
      if eqb k k' then (k', v) :: m' else (k', v') :: dict_set k v m'
  end.

(** [del m[k]], for a key that is present *)
Definition dict_del (k : K) (m : dict) : dict :=
  filter (fun kv => negb (eqb k (fst kv))) m.

(** [list(m.keys())] *)
Definition dict_keys (m : dict) : list K := map fst m.
End Dict.

Arguments dict : clear implicits.

(** [enumerate(l)], counting from [n] *)
Fixpoint enumerate_from {A : Type} (n : Z) (l : list A) : list (Z * A) :=
  match l with
  | [] => []
  | a :: l' => (n, a) :: enumerate_from (n + 1) l'
  end.

Definition enumerate {A : Type} (l : list A) : list (Z * A) :=
  enumerate_from 0 l.

(** ** Exceptions, and what a call comes back with *)

Inductive Exn : Type :=
| AssertionError
| AttributeError
| KeyError
| RuntimeError
| OSError
| JSONDecodeError.

Inductive outcome (A : Type) : Type :=
| Returned (a : A)
| Raised (e : Exn).

Arguments Returned {A} a.
Arguments Raised {A} e.

(** ** The FAISS library: [faiss.IndexFlatL2]

    The index of the library, as far as the service uses it: a dimension
    [d], the stored vectors in the order they were added ([ntotal] of
    them), [add] and [search].  Both check the dimension of their
    argument with an [assert], and [search] checks [k > 0].  A search
    always yields [k] labels: stored positions, and -1 where it found
    fewer than [k] neighbours. *)

Section Faiss.
Context {F : Float32}.

Definition Vector := list float.

Record IndexFlatL2 : Type := mkIndex {
  d : Z;
  xb : list Vector
}.

(** [faiss.IndexFlatL2(dim)] *)
Definition new_IndexFlatL2 (dim : Z) : IndexFlatL2 :=
  {| d := dim; xb := [] |}.

Definition ntotal (i : IndexFlatL2) : Z := Z.of_nat (length (xb i)).

(** [index.add(x)] for a single row [x] *)
Definition index_add (i : IndexFlatL2) (x : Vector) : outcome IndexFlatL2 :=
  if Z.of_nat (length x) =? d i
  then Returned {| d := d i; xb := xb i ++ [x] |}
  else Raised AssertionError.

(** squared Euclidean distance: the sum of the squared differences *)
Definition fvec_L2sqr (x y : Vector) : float :=
  fold_left (fun res ab => fadd res (fmul (fsub (fst ab) (snd ab))
                                          (fsub (fst ab) (snd ab))))
            (combine x y) fzero.

(** the candidates of a query: every position with its distance *)
Definition candidates (i : IndexFlatL2) (q : Vector) : list (Z * float) :=
  enumerate (map (fvec_L2sqr q) (xb i)).

(** ascending distance; of two equal distances the lower position first *)
Fixpoint rank_insert (c : Z * float) (l : list (Z * float)) : list (Z * float) :=
  match l with
  | [] => [c]
  | c' :: l' =>
      if fle (snd c) (snd c') then c :: c' :: l' else c' :: rank_insert c l'
  end.

Fixpoint rank (l : list (Z * float)) : list (Z * float) :=
  match l with
  | [] => []
  | c :: l' => rank_insert c (rank l')
  end.

(** a candidate enters the heap of the results when its distance is
    strictly below the [FLT_MAX] that the heap is filled with: a
    distance that has overflowed to infinity, or that is not a number,
    does not *)
Definition reaches (c : Z * float) : bool := flt (snd c) fmax.

(** the [k] results of a query: the nearest of the candidates that
    were kept and, where fewer than [k] were, the label -1 at distance
    [FLT_MAX] that the heap was filled with, once for each result that
    is missing *)
Definition knn (i : IndexFlatL2) (q : Vector) (k : nat) : list (Z * float) :=
  let found := firstn k (rank (filter reaches (candidates i q))) in
  found ++ repeat (-1, fmax) (k - length found).

(** [D, I = index.search(q, k)] for a single query row [q] *)
Definition index_search (i : IndexFlatL2) (q : Vector) (k : Z)
  : outcome (list float * list Z) :=
  if negb (Z.of_nat (length q) =? d i) then Raised AssertionError
  else if k <=? 0 then Raised AssertionError
  else
    let best := knn i q (Z.to_nat k) in
    Returned (map snd best, map fst best).
End Faiss.

(** ** The data of the service *)

(** A JSON value: what the [metadata] argument of [add_resume] holds. *)
#[warnings="-register-all"]
Inductive json : Type :=
| JNull
| JBool (b : bool)
| JNum (n : Z)
| JStr (s : string)
| JList (l : list json)
| JDict (m : list (string * json)).

Definition Attributes := list (string * json).

(** an entry of [_metadata]: [{"text": ..., "metadata": ...}] *)
Record MetadataRecord : Type := mkRecord {
  text : string;
  metadata : Attributes
}.

(** the dictionary that [search_resumes] returns *)
Record SearchResults {F : Float32} : Type := mkResults {
  ids : list string;
  distances : list float;
  documents : list string;
  metadatas : list Attributes
}.

(** the dictionary that [get_collection_stats] returns; the handler of
    its [except] returns [total_items] alone *)
Record Stats : Type := mkStats {
  total_items : Z;
  dimension : option Z;
  index_type : option string
}.

(** the dictionary that [get_resume] returns: the keys [id], [document]
    and [metadata] *)
Record Resume : Type := mkResume {
  got_id : string;
  got_document : string;
  got_metadata : Attributes
}.

Inductive Level : Type := LInfo | LWarning | LError.

Inductive Message : Type :=
| LoadedIndex (n : Z)
| CreatedIndex
| FailedLoadIndex (e : Exn)
| LoadedMetadata (n : nat)
| FailedLoadMetadata (e : Exn)
| SavedIndex
| FailedSaveIndex (e : Exn)
| SavedMetadata
| FailedSaveMetadata (e : Exn)
| ServiceInitialized
| ResumeAdded (resume_id : string)
| FailedAddResume (e : Exn)
| NoResumesInIndex
| SearchCompleted (n : nat)
| SearchFailed (e : Exn)
| ResumeNotFound (resume_id : string)
| ResumeDeleted (resume_id : string)
| FailedDeleteResume (e : Exn)
| IndexRebuilt
| FailedRebuildIndex (e : Exn)
| FailedGetResume (e : Exn)
| CollectionStats (s : Stats)
| FailedGetStats (e : Exn)
| CollectionCleared
| FailedClearCollection (e : Exn)
| FailedListResumes (e : Exn).

(** ** The files

    [resumes.index] and [metadata.json] under [./faiss_data]: each is
    absent, or holds something that does not parse, or holds something
    that does.  Whether a write to the file succeeds is a property of
    the disk, and so is the way in which it fails. *)

Inductive Artifact (A : Type) : Type :=
| Absent
| Malformed
| Stored (a : A).

Arguments Absent {A}.
Arguments Malformed {A}.
Arguments Stored {A} a.

(** Where a write fails.  Both saves open the file for writing first,
    which empties it: a write fails when the file is opened, and the
    file stays as it was, or after that, while the content is written
    or when the file is closed, and the file is left cut, which does
    not parse. *)
Inductive Fault : Type :=
| AtOpen
| Midway
| AtClose.

Section Service.
Context {F : Float32}.

(** a JSON object as [_save_metadata] writes it, with dictionaries
    under the keys [metadata] and [id_to_index]; either key may be
    missing *)
Record MetadataFile : Type := mkMetadataFile {
  file_metadata : option (dict string MetadataRecord);
  file_id_to_index : option (dict string Z)
}.

(** What [metadata.json] parses to: such an object, or a JSON value
    that is no object (a list, a string, a number, [null]).
    [_load_metadata] checks no shape at all, so an object that holds
    something else than a dictionary under one of the two keys is
    assigned to the fields as it is; the fields are dictionaries here,
    and files of that kind are not among those of this development. *)
Inductive MetadataJson : Type :=
| JsonObject (data : MetadataFile)
| JsonOther.

Record Disk : Type := mkDisk {
  FAISS_INDEX_PATH : Artifact IndexFlatL2;
  FAISS_METADATA_PATH : Artifact MetadataJson;
  index_writable : bool;
  metadata_writable : bool;
  index_fault : Fault;
  metadata_fault : Fault
}.

(** the static fields of the class *)
Record FAISSService : Type := mkService {
  _index : option IndexFlatL2;
  _metadata : dict string MetadataRecord;
  _id_to_index : dict string Z
}.

Record World : Type := mkWorld {
  service : FAISSService;
  disk : Disk;
  log : list (Level * Message)
}.

(** *** The monad *)

Definition Py (A : Type) : Type := World -> outcome A * World.

Definition ret {A} (a : A) : Py A := fun w => (Returned a, w).

Definition raise {A} (e : Exn) : Py A := fun w => (Raised e, w).

Definition bind {A B} (m : Py A) (k : A -> Py B) : Py B :=
  fun w =>
    match m w with
    | (Returned a, w') => k a w'
    | (Raised e, w') => (Raised e, w')
    end.

(** [try: m except Exception as e: h e] *)
Definition try_except {A} (m : Py A) (h : Exn -> Py A) : Py A :=
  fun w =>
    match m w with
    | (Returned a, w') => (Returned a, w')
    | (Raised e, w') => h e w'
    end.

Definition get_service : Py FAISSService := fun w => (Returned (service w), w).

Definition put_service (s : FAISSService) : Py unit :=
  fun w => (Returned tt, {| service := s; disk := disk w; log := log w |}).

Definition logger (l : Level) (m : Message) : Py unit :=
  fun w => (Returned tt,
            {| service := service w; disk := disk w; log := log w ++ [(l, m)] |}).
End Service.

Declare Scope py_scope.
Delimit Scope py_scope with py.
Notation "x <- m ;; k" := (bind m (fun x => k))
  (at level 61, m at next level, right associativity) : py_scope.
Notation "m ;; k" := (bind m (fun _ => k))
  (at level 61, right associativity) : py_scope.

Local Open Scope py_scope.

(** ** The methods of [FAISSService] *)

Section Methods.
Context {F : Float32}.

Definition of_outcome {A} (o : outcome A) : Py A := fun w => (o, w).

Definition set_index (i : option IndexFlatL2) : Py unit :=
  s <- get_service ;;
  put_service {| _index := i; _metadata := _metadata s;
                 _id_to_index := _id_to_index s |}.

Definition set_metadata (m : dict string MetadataRecord) : Py unit :=
  s <- get_service ;;
  put_service {| _index := _index s; _metadata := m;
                 _id_to_index := _id_to_index s |}.

Definition set_id_to_index (m : dict string Z) : Py unit :=
  s <- get_service ;;
  put_service {| _index := _index s; _metadata := _metadata s;
                 _id_to_index := m |}.

(** [FAISSService._index.] followed by an attribute: an
    [AttributeError] on [None] *)
Definition the_index : Py IndexFlatL2 :=
  s <- get_service ;;
  match _index s with
  | Some i => ret i
  | None => raise AttributeError
  end.

(** *** The file system *)

Definition os_path_exists {A} (path : Disk -> Artifact A) : Py bool :=
  fun w => (Returned match path (disk w) with
                     | Absent => false
                     | _ => true
                     end, w).

(** [faiss.read_index(FAISS_INDEX_PATH)] *)
Definition faiss_read_index : Py IndexFlatL2 :=
  fun w => match FAISS_INDEX_PATH (disk w) with
           | Stored i => (Returned i, w)
           | _ => (Raised RuntimeError, w)
           end.

(** the file [resumes.index] becomes [a] *)
Definition set_index_file (a : Artifact IndexFlatL2) (w : World) : World :=
  {| service := service w;
     disk := {| FAISS_INDEX_PATH := a;
                FAISS_METADATA_PATH := FAISS_METADATA_PATH (disk w);
                index_writable := index_writable (disk w);
                metadata_writable := metadata_writable (disk w);
                index_fault := index_fault (disk w);
                metadata_fault := metadata_fault (disk w) |};
     log := log w |}.

(** the file [metadata.json] becomes [a] *)
Definition set_metadata_file (a : Artifact MetadataJson) (w : World) : World :=
  {| service := service w;
     disk := {| FAISS_INDEX_PATH := FAISS_INDEX_PATH (disk w);
                FAISS_METADATA_PATH := a;
                index_writable := index_writable (disk w);
                metadata_writable := metadata_writable (disk w);
                index_fault := index_fault (disk w);
                metadata_fault := metadata_fault (disk w) |};
     log := log w |}.

(** [faiss.write_index(i, FAISS_INDEX_PATH)]: the library raises when
    it cannot open the file and when a write comes short; it does not
    look at what closing the file returns, so that a write lost there
    leaves a cut file behind a call that returns *)
Definition faiss_write_index (i : IndexFlatL2) : Py unit :=
  fun w =>
    if index_writable (disk w)
    then (Returned tt, set_index_file (Stored i) w)
    else match index_fault (disk w) with
         | AtOpen => (Raised RuntimeError, w)
         | Midway => (Raised RuntimeError, set_index_file Malformed w)
         | AtClose => (Returned tt, set_index_file Malformed w)
         end.

(** [with open(FAISS_METADATA_PATH, 'r') as f: json.load(f)] *)
Definition json_load : Py MetadataJson :=
  fun w => match FAISS_METADATA_PATH (disk w) with
           | Stored data => (Returned data, w)
           | Malformed => (Raised JSONDecodeError, w)
           | Absent => (Raised OSError, w)
           end.

(** [data.get(key, {})] on what [json.load] returned: an
    [AttributeError] when that is no object *)
Definition data_get {A} (key : MetadataFile -> option (list A))
           (data : MetadataJson) : Py (list A) :=
  match data with
  | JsonObject o => ret match key o with
                        | Some m => m
                        | None => []
                        end
  | JsonOther => raise AttributeError
  end.

(** [with open(FAISS_METADATA_PATH, 'w') as f: json.dump(data, f, indent=2)]:
    [open] raises before it has touched the file; a failure of
    [json.dump], or of the flush when the [with] block closes the file,
    raises on a file that [open] has emptied *)
Definition json_dump (data : MetadataFile) : Py unit :=
  fun w =>
    if metadata_writable (disk w)
    then (Returned tt, set_metadata_file (Stored (JsonObject data)) w)
    else match metadata_fault (disk w) with
         | AtOpen => (Raised OSError, w)
         | Midway | AtClose => (Raised OSError, set_metadata_file Malformed w)
         end.

(** *** Loading and saving *)

Definition _load_index : Py unit :=
  try_except
    (present <- os_path_exists FAISS_INDEX_PATH ;;
     if present : bool then
       i <- faiss_read_index ;;
       set_index (Some i) ;;
       logger LInfo (LoadedIndex (ntotal i))
     else
       set_index (Some (new_IndexFlatL2 384)) ;;
       logger LInfo CreatedIndex)
    (fun e =>
       logger LError (FailedLoadIndex e) ;;
       set_index (Some (new_IndexFlatL2 384))).

Definition _load_metadata : Py unit :=
  try_except
    (present <- os_path_exists FAISS_METADATA_PATH ;;
     if present : bool then
       data <- json_load ;;
       m <- data_get file_metadata data ;;
       set_metadata m ;;
       im <- data_get file_id_to_index data ;;
       set_id_to_index im ;;
       s <- get_service ;;
       logger LInfo (LoadedMetadata (length (_metadata s)))
     else
       set_metadata [] ;;
       set_id_to_index [])
    (fun e =>
       logger LError (FailedLoadMetadata e) ;;
       set_metadata [] ;;
       set_id_to_index []).

Definition _save_index : Py unit :=
  try_except
    (s <- get_service ;;
     match _index s with
     | Some i =>
         faiss_write_index i ;;
         logger LInfo SavedIndex
     | None => ret tt
     end)
    (fun e => logger LError (FailedSaveIndex e)).

Definition _save_metadata : Py unit :=
  try_except
    (s <- get_service ;;
     let data := {| file_metadata := Some (_metadata s);
                    file_id_to_index := Some (_id_to_index s) |} in
     json_dump data ;;
     logger LInfo SavedMetadata)
    (fun e => logger LError (FailedSaveMetadata e)).

Definition initialize : Py unit :=
  _load_index ;;
  _load_metadata ;;
  logger LInfo ServiceInitialized.

(** [if FAISSService._index is None: FAISSService.initialize()] *)
Definition ensure_initialized : Py unit :=
  s <- get_service ;;
  match _index s with
  | None => initialize
  | Some _ => ret tt
  end.

(** *** Adding *)

Definition add_resume (resume_id : string) (resume_text : string)
           (embedding : Vector) (metadata : option Attributes) : Py bool :=
  try_except
    (ensure_initialized ;;
     let embedding_array := embedding in
     i <- the_index ;;
     let index_position := ntotal i in
     i' <- of_outcome (index_add i embedding_array) ;;
     set_index (Some i') ;;
     let metadata := match metadata with
                     | None => []
                     | Some m => m
                     end in
     s <- get_service ;;
     set_metadata (dict_set String.eqb resume_id
                     {| text := resume_text; metadata := metadata |}
                     (_metadata s)) ;;
     s <- get_service ;;
     set_id_to_index (dict_set String.eqb resume_id index_position
                        (_id_to_index s)) ;;
     _save_index ;;
     _save_metadata ;;
     logger LInfo (ResumeAdded resume_id) ;;
     ret true)
    (fun e =>
       logger LError (FailedAddResume e) ;;
       ret false).

(** *** Searching *)

Definition empty_results : SearchResults :=
  {| ids := []; distances := []; documents := []; metadatas := [] |}.

(** [{v: k for k, v in FAISSService._id_to_index.items()}] *)
Definition invert (m : dict string Z) : dict Z string :=
  fold_left (fun acc kv => dict_set Z.eqb (snd kv) (fst kv) acc) m [].

(** the body of the loop over [zip(indices[0], distances[0])] *)
Definition collect (index_to_id : dict Z string)
           (meta : dict string MetadataRecord)
           (results : SearchResults) (hit : Z * float) : SearchResults :=
  let (idx, distance) := hit in
  match dict_get Z.eqb idx index_to_id with
  | Some resume_id =>
      let resume_data := dict_get String.eqb resume_id meta in
      {| ids := ids results ++ [resume_id];
         distances := distances results ++ [distance];
         documents := documents results ++
                      [match resume_data with
                       | Some r => text r
                       | None => EmptyString
                       end];
         metadatas := metadatas results ++
                      [match resume_data with
                       | Some r => metadata r
                       | None => []
                       end] |}
  | None => results
  end.

Definition search_resumes (query_embedding : Vector) (n_results : Z)
  : Py (option SearchResults) :=
  try_except
    (ensure_initialized ;;
     i <- the_index ;;
     if ntotal i =? 0 then
       logger LWarning NoResumesInIndex ;;
       ret (Some empty_results)
     else
       let query_array := query_embedding in
       let n_results := Z.min n_results (ntotal i) in
       found <- of_outcome (index_search i query_array n_results) ;;
       let (distances0, indices0) := found : list float * list Z in
       s <- get_service ;;
       let index_to_id := invert (_id_to_index s) in
       let results :=
         fold_left (collect index_to_id (_metadata s))
                   (combine indices0 distances0) empty_results in
       logger LInfo (SearchCompleted (length (ids results))) ;;
       ret (Some results))
    (fun e =>
       logger LError (SearchFailed e) ;;
       ret None).

(** *** Deleting *)

(** the loop of [_rebuild_index] over
    [enumerate(FAISSService._metadata.items())]: it numbers the
    entries, and adds no embedding to the new index *)
Definition renumber (meta : dict string MetadataRecord) : dict string Z :=
  fold_left (fun new_id_to_index entry =>
               let '(idx, (resume_id, resume_data)) := entry in
               dict_set String.eqb resume_id idx new_id_to_index)
            (enumerate meta) [].

Definition _rebuild_index : Py unit :=
  try_except
    (let new_index := new_IndexFlatL2 384 in
     s <- get_service ;;
     let new_id_to_index := renumber (_metadata s) in
     set_index (Some new_index) ;;
     set_id_to_index new_id_to_index ;;
     _save_index ;;
     _save_metadata ;;
     logger LInfo IndexRebuilt)
    (fun e => logger LError (FailedRebuildIndex e)).

(** [del m[k]]: a [KeyError] when the key is missing *)
Definition del_metadata (k : string) : Py unit :=
  s <- get_service ;;
  if dict_mem String.eqb k (_metadata s)
  then set_metadata (dict_del String.eqb k (_metadata s))
  else raise KeyError.

Definition del_id_to_index (k : string) : Py unit :=
  s <- get_service ;;
  if dict_mem String.eqb k (_id_to_index s)
  then set_id_to_index (dict_del String.eqb k (_id_to_index s))
  else raise KeyError.

Definition delete_resume (resume_id : string) : Py bool :=
  try_except
    (s <- get_service ;;
     if negb (dict_mem String.eqb resume_id (_metadata s)) then
       logger LWarning (ResumeNotFound resume_id) ;;
       ret false
     else
       del_metadata resume_id ;;
       del_id_to_index resume_id ;;
       _rebuild_index ;;
       logger LInfo (ResumeDeleted resume_id) ;;
       ret true)
    (fun e =>
       logger LError (FailedDeleteResume e) ;;
       ret false).

(** *** Reading *)

Definition get_resume (resume_id : string) : Py (option Resume) :=
  try_except
    (s <- get_service ;;
     match dict_get String.eqb resume_id (_metadata s) with
     | None =>
         logger LWarning (ResumeNotFound resume_id) ;;
         ret None
     | Some resume_data =>
         ret (Some {| got_id := resume_id;
                      got_document := text resume_data;
                      got_metadata := metadata resume_data |})
     end)
    (fun e =>
       logger LError (FailedGetResume e) ;;
       ret None).

Definition get_collection_stats : Py Stats :=
  try_except
    (ensure_initialized ;;
     i <- the_index ;;
     let stats := {| total_items := ntotal i;
                     dimension := Some 384;
                     index_type := Some "IndexFlatL2" |} in
     logger LInfo (CollectionStats stats) ;;
     ret stats)
    (fun e =>
       logger LError (FailedGetStats e) ;;
       ret {| total_items := 0; dimension := None; index_type := None |}).

Definition clear_collection : Py bool :=
  try_except
    (set_index (Some (new_IndexFlatL2 384)) ;;
     set_metadata [] ;;
     set_id_to_index [] ;;
     _save_index ;;
     _save_metadata ;;
     logger LInfo CollectionCleared ;;
     ret true)
    (fun e =>
       logger LError (FailedClearCollection e) ;;
       ret false).

Definition list_all_resumes : Py (list string) :=
  try_except
    (s <- get_service ;;
     ret (dict_keys (_metadata s)))
    (fun e =>
       logger LError (FailedListResumes e) ;;
       ret []).
End Methods.

(** ** Running a method: what it returns, and the world it leaves *)

Definition answer {F : Float32} {A} (m : Py A) (w : World) : outcome A :=
  fst (m w).

Definition after {F : Float32} {A} (m : Py A) (w : World) : World :=
  snd (m w).

Ltac unfold_py :=
  unfold answer, after, add_resume, search_resumes, delete_resume,
    _rebuild_index, clear_collection, get_collection_stats, list_all_resumes,
    ensure_initialized, initialize, _load_index, _load_metadata,
    _save_index, _save_metadata, del_metadata, del_id_to_index,
    the_index, set_index, set_metadata, set_id_to_index, of_outcome,
    os_path_exists, faiss_read_index, faiss_write_index, json_load, json_dump,
    data_get, set_index_file, set_metadata_file,
    logger, get_service, put_service, try_except, bind, ret, raise in *.

(** a closed statement about a run of the service: every equation of
    it by computation *)
Ltac by_computation :=
  cbv zeta; repeat apply conj; vm_compute; reflexivity.

(** * The statements

    What the properties below are stated with: what a load leaves in
    the fields, the ranking of a search, the consistency of the fields,
    sequences of calls, and a run of the service on two resumes. *)

Section Statements.
Context {F : Float32}.

(** ** Loading *)

(** [data.get(key, {})], and a [metadata] argument that is [None] *)
Definition or_empty {A} (o : option (list A)) : list A :=
  match o with Some m => m | None => [] end.

(** what [_load_index] leaves in [_index] *)
Definition loaded_index (dk : Disk) : IndexFlatL2 :=
  match FAISS_INDEX_PATH dk with
  | Stored i => i
  | _ => new_IndexFlatL2 384
  end.

(** what [_load_metadata] leaves in [_metadata] and [_id_to_index] *)
Definition loaded_metadata (dk : Disk) : dict string MetadataRecord :=
  match FAISS_METADATA_PATH dk with
  | Stored (JsonObject data) => or_empty (file_metadata data)
  | _ => []
  end.

Definition loaded_id_to_index (dk : Disk) : dict string Z :=
  match FAISS_METADATA_PATH dk with
  | Stored (JsonObject data) => or_empty (file_id_to_index data)
  | _ => []
  end.

(** ** Searching *)

(** the neighbours that [index.search] finds for [k]: the [k] nearest
    of the candidates that it keeps, as it ranks them *)
Definition nearest (i : IndexFlatL2) (q : Vector) (k : Z) : list (Z * float) :=
  firstn (Z.to_nat k) (rank (filter reaches (candidates i q))).

(** what [index.search] yields for [k]: these neighbours, then the
    label -1 for each of the [k] that is missing *)
Definition labels (i : IndexFlatL2) (q : Vector) (k : Z) : list (Z * float) :=
  nearest i q k ++ repeat (-1, fmax) (Z.to_nat k - length (nearest i q k)).

(** the distances that the index keeps *)
Definition kept_distances (i : IndexFlatL2) (q : Vector) : list float :=
  filter (fun x => flt x fmax) (map (fvec_L2sqr q) (xb i)).

(** no distance from the query to a stored embedding has overflowed:
    the index keeps every candidate *)
Definition in_range (i : IndexFlatL2) (q : Vector) : Prop :=
  forall x, In x (xb i) -> flt (fvec_L2sqr q x) fmax = true.

(** [a] ranks before [b]: it is no farther, and of two candidates at
    the same distance it has the lower position *)
Definition closer (a b : Z * float) : Prop :=
  fle (snd a) (snd b) = true /\
  (fle (snd b) (snd a) = true -> fst a < fst b).

(** the position has an id in [index_to_id]: the loop of
    [search_resumes] keeps the hit *)
Definition bound (index_to_id : dict Z string) (c : Z * float) : bool :=
  dict_mem Z.eqb (fst c) index_to_id.

(** [resume_data.get("text", "")] and [resume_data.get("metadata", {})] *)
Definition text_of (meta : dict string MetadataRecord) (id : string) : string :=
  match dict_get String.eqb id meta with
  | Some r => text r
  | None => EmptyString
  end.

Definition metadata_of (meta : dict string MetadataRecord) (id : string)
  : Attributes :=
  match dict_get String.eqb id meta with
  | Some r => metadata r
  | None => []
  end.

(** ** The three-way consistency of the fields

    Every id of [_metadata] has a position in [_id_to_index] (a
    dictionary gives a key one value), and the position is one of the
    [ntotal] occupied slots of [_index]. *)

Definition slot_ok (s : FAISSService) (id : string) : bool :=
  match dict_get String.eqb id (_id_to_index s), _index s with
  | Some p, Some i => (0 <=? p) && (p <? ntotal i)
  | _, _ => false
  end.

Definition consistent (s : FAISSService) : bool :=
  forallb (slot_ok s) (dict_keys (_metadata s)).

(** ** Calls of the service *)

(** the fields as the class declares them *)
Definition fields_at_import : FAISSService :=
  {| _index := None; _metadata := []; _id_to_index := [] |}.

(** the operations that change the fields and save them *)
Inductive Mutation : Type :=
| Add (resume_id resume_text : string) (embedding : Vector)
      (metadata : option Attributes)
| Delete (resume_id : string)
| Clear.

Definition perform (op : Mutation) : Py bool :=
  match op with
  | Add resume_id resume_text embedding metadata =>
      add_resume resume_id resume_text embedding metadata
  | Delete resume_id => delete_resume resume_id
  | Clear => clear_collection
  end.

(** a call of the service, between the deletion and a later search *)
Inductive Call : Type :=
| Mutate (op : Mutation)
| Search (query_embedding : Vector) (n_results : Z)
| GetStats
| ListAll.

Definition run_call (w : World) (c : Call) : World :=
  match c with
  | Mutate op => after (perform op) w
  | Search q k => after (search_resumes q k) w
  | GetStats => after get_collection_stats w
  | ListAll => after list_all_resumes w
  end.

Definition run_calls (calls : list Call) (w : World) : World :=
  fold_left run_call calls w.

(** the call adds the id again *)
Definition adds (id : string) (c : Call) : bool :=
  match c with
  | Mutate (Add resume_id _ _ _) => String.eqb id resume_id
  | _ => false
  end.

(** the index is loaded and the id is in neither dictionary *)
Definition gone (id : string) (s : FAISSService) : Prop :=
  _index s <> None /\
  dict_mem String.eqb id (_metadata s) = false /\
  dict_mem String.eqb id (_id_to_index s) = false.

(** ** Adding an id again *)

(** the embedding is appended, and the id is bound to its position *)
Definition appended_and_rebound (s s' : FAISSService) (id : string)
           (v : Vector) : Prop :=
  exists i,
    _index s = Some i /\
    _index s' = Some {| d := d i; xb := xb i ++ [v] |} /\
    dict_get String.eqb id (_id_to_index s') = Some (ntotal i).

(** one more vector is counted, and as many ids are listed *)
Definition one_more_vector_same_ids (w w' : World) : Prop :=
  exists st st' l l',
    answer get_collection_stats w = Returned st /\
    answer get_collection_stats w' = Returned st' /\
    total_items st' = total_items st + 1 /\
    answer list_all_resumes w = Returned l /\
    answer list_all_resumes w' = Returned l' /\
    length l' = length l.

(** the embedding stored for the id before is still at its position,
    and no id is bound to that position *)
Definition old_vector_orphaned (s s' : FAISSService) (id : string) : Prop :=
  exists i i' p x,
    _index s = Some i /\
    _index s' = Some i' /\
    dict_get String.eqb id (_id_to_index s) = Some p /\
    0 <= p /\
    nth_error (xb i) (Z.to_nat p) = Some x /\
    nth_error (xb i') (Z.to_nat p) = Some x /\
    forall id', dict_get String.eqb id' (_id_to_index s') <> Some p.

(** what [add_resume] of an id that is present is said to do *)
Definition upserted (w : World) (id txt : string) (v : Vector)
           (attrs : option Attributes) : Prop :=
  let w' := after (add_resume id txt v attrs) w in
  answer (add_resume id txt v attrs) w = Returned true /\
  dict_get String.eqb id (_metadata (service w')) =
    Some {| text := txt; metadata := or_empty attrs |} /\
  appended_and_rebound (service w) (service w') id v /\
  one_more_vector_same_ids w w' /\
  old_vector_orphaned (service w) (service w') id.
End Statements.

(** ** A run of the service on two resumes

    The embeddings are unit vectors of dimension 384, as in the example
    of the specification; the service starts with the fields as the
    class declares them and no file under [./faiss_data]. *)

Definition unit_vec (n : nat) : @Vector ExactZ :=
  repeat 0 n ++ [1] ++ repeat 0 (383 - n).

Definition no_files (writable : bool) : @Disk ExactZ :=
  {| FAISS_INDEX_PATH := Absent;
     FAISS_METADATA_PATH := Absent;
     index_writable := writable;
     metadata_writable := writable;
     index_fault := AtOpen;
     metadata_fault := AtOpen |}.

Definition at_import : @World ExactZ :=
  {| service := fields_at_import;
     disk := no_files true;
     log := [] |}.

Definition started : World := after initialize at_import.

Definition one_resume : World :=
  after (add_resume "r1" "engineer" (unit_vec 0) None) started.

Definition two_resumes : World :=
  after (add_resume "r2" "doctor" (unit_vec 1) None) one_resume.

Definition r1_deleted : World := after (delete_resume "r1") two_resumes.

Definition stats_of (n : Z) : Stats :=
  {| total_items := n; dimension := Some 384;
     index_type := Some "IndexFlatL2" |}.

(** an index file that does not parse, beside a metadata file that does *)
Definition damaged_index : @Disk ExactZ :=
  {| FAISS_INDEX_PATH := Malformed;
     FAISS_METADATA_PATH :=
       Stored (JsonObject
                 {| file_metadata :=
                      Some [("r1", {| text := "engineer"; metadata := [] |})];
                    file_id_to_index := Some [("r1", 0)] |});
     index_writable := true;
     metadata_writable := true;
     index_fault := AtOpen;
     metadata_fault := AtOpen |}.

(** a metadata file that does not parse, beside an index file that does *)
Definition damaged_metadata : @Disk ExactZ :=
  {| FAISS_INDEX_PATH := Stored {| d := 384; xb := [unit_vec 0] |};
     FAISS_METADATA_PATH := Malformed;
     index_writable := true;
     metadata_writable := true;
     index_fault := AtOpen;
     metadata_fault := AtOpen |}.

(** the service started on a disk that takes no write: neither file
    can be opened for writing *)
Definition started_unwritable : @World ExactZ :=
  after initialize
        {| service := fields_at_import; disk := no_files false; log := [] |}.

(** a metadata file without the key [id_to_index], beside the index it
    was saved with *)
Definition positions_missing : @Disk ExactZ :=
  {| FAISS_INDEX_PATH := Stored {| d := 384; xb := [unit_vec 0] |};
     FAISS_METADATA_PATH :=
       Stored (JsonObject
                 {| file_metadata :=
                      Some [("r1", {| text := "engineer"; metadata := [] |})];
                    file_id_to_index := None |});
     index_writable := true;
     metadata_writable := true;
     index_fault := AtOpen;
     metadata_fault := AtOpen |}.

Definition started_without_positions : @World ExactZ :=
  after initialize
        {| service := fields_at_import; disk := positions_missing; log := [] |}.

(** the call returns: no exception leaves the method *)
Definition returns {F : Float32} {A} (m : Py A) (w : World) : Prop :=
  exists a, answer m w = Returned a.

(** the call leaves the fields and the files as they were *)
Definition reads_only {F : Float32} {A} (m : Py A) (w : World) : Prop :=
  service (after m w) = service w /\ disk (after m w) = disk w.

(** every id has a position of its own, among the occupied ones: the
    keys of [_id_to_index] are distinct (as in every dictionary), so are
    its values, each value is an occupied slot of the loaded index, and
    every id of [_metadata] is a key of [_id_to_index] *)
Definition positions_tidy {F : Float32} (s : FAISSService) : Prop :=
  NoDup (dict_keys (_id_to_index s)) /\
  NoDup (map snd (_id_to_index s)) /\
  (exists i, _index s = Some i /\
             forall id p, In (id, p) (_id_to_index s) -> 0 <= p < ntotal i) /\
  (forall id, dict_mem String.eqb id (_metadata s) = true ->
              dict_mem String.eqb id (_id_to_index s) = true).

(** the call is a [delete_resume] *)
Definition deletes {F : Float32} (c : Call) : bool :=
  match c with
  | Mutate (Delete _) => true
  | _ => false
  end.

(** * The callers: the embedding service and the routes

    [backend/app/services/embedding_service.py] and
    [backend/app/routers/embeddings.py].  The sentence transformer is a
    value of the module, [None] when loading it failed at import; each
    module has a logger of its own.  A route returns its body or raises
    an [HTTPException]; the text [str(e)] of an exception is kept as
    the exception itself. *)

Inductive Exc : Type :=
| HTTPException (status_code : Z) (detail : Detail)
| Exception (message : string)
| Builtin (e : Exn)
with Detail : Type :=
| Literal (s : string)
| Str (e : Exc).

Inductive thrown (A : Type) : Type :=
| Done (a : A)
| Threw (e : Exc).

Arguments Done {A} a.
Arguments Threw {A} e.

Inductive EmbeddingMessage : Type :=
| EmbeddingGenerated (n : nat)
| FailedGenerateEmbedding (e : Exc)
| BatchGenerated (n : nat)
| FailedGenerateBatch (e : Exc).

Inductive RouterMessage : Type :=
| RouterError (e : Exc).

Section App.
Context {F : Float32}.

(** [model.encode], of one text and of a list of texts *)
Record SentenceTransformer : Type := mkModel {
  encode : string -> outcome Vector;
  encode_batch : list string -> outcome (list Vector)
}.

Record App : Type := mkApp {
  faiss : World;
  model : option SentenceTransformer;
  embedding_log : list (Level * EmbeddingMessage);
  router_log : list (Level * RouterMessage)
}.

Definition Ep (A : Type) : Type := App -> thrown A * App.

Definition ep_ret {A} (x : A) : Ep A := fun a => (Done x, a).

Definition throw {A} (e : Exc) : Ep A := fun a => (Threw e, a).

Definition ep_bind {A B} (m : Ep A) (k : A -> Ep B) : Ep B :=
  fun a =>
    match m a with
    | (Done x, a') => k x a'
    | (Threw e, a') => (Threw e, a')
    end.

(** [try: m except Exception as e: h e] *)
Definition ep_try {A} (m : Ep A) (h : Exc -> Ep A) : Ep A :=
  fun a =>
    match m a with
    | (Done x, a') => (Done x, a')
    | (Threw e, a') => h e a'
    end.

(** a call of a method of [FAISSService] *)
Definition call {A} (m : Py A) : Ep A :=
  fun a =>
    let (o, w') := m (faiss a) in
    let a' := {| faiss := w'; model := model a;
                 embedding_log := embedding_log a;
                 router_log := router_log a |} in
    match o with
    | Returned x => (Done x, a')
    | Raised e => (Threw (Builtin e), a')
    end.

(** [model.encode], when the model is loaded *)
Definition of_encoder {A} (o : outcome A) : Ep A :=
  fun a =>
    match o with
    | Returned x => (Done x, a)
    | Raised e => (Threw (Builtin e), a)
    end.

Definition embedding_logger (l : Level) (m : EmbeddingMessage) : Ep unit :=
  fun a => (Done tt,
            {| faiss := faiss a; model := model a;
               embedding_log := embedding_log a ++ [(l, m)];
               router_log := router_log a |}).

Definition router_logger (l : Level) (m : RouterMessage) : Ep unit :=
  fun a => (Done tt,
            {| faiss := faiss a; model := model a;
               embedding_log := embedding_log a;
               router_log := router_log a ++ [(l, m)] |}).

Definition get_model : Ep (option SentenceTransformer) :=
  fun a => (Done (model a), a).
End App.

Declare Scope ep_scope.
Delimit Scope ep_scope with ep.
Notation "x <- m ;; k" := (ep_bind m (fun x => k))
  (at level 61, m at next level, right associativity) : ep_scope.
Notation "m ;; k" := (ep_bind m (fun _ => k))
  (at level 61, right associativity) : ep_scope.

Module EmbeddingService.
Section EmbeddingService.
Context {F : Float32}.
Local Open Scope ep_scope.

Definition generate_embedding (text : string) : Ep (option Vector) :=
  ep_try
    (model <- get_model ;;
     match model with
     | None => throw (Exception "Embedding model not loaded")
     | Some model =>
         embedding <- of_encoder (encode model text) ;;
         embedding_logger LInfo (EmbeddingGenerated (length embedding)) ;;
         ep_ret (Some embedding)
     end)
    (fun e =>
       embedding_logger LError (FailedGenerateEmbedding e) ;;
       ep_ret None).

Definition generate_embeddings_batch (texts : list string)
  : Ep (option (list Vector)) :=
  ep_try
    (model <- get_model ;;
     match model with
     | None => throw (Exception "Embedding model not loaded")
     | Some model =>
         embeddings <- of_encoder (encode_batch model texts) ;;
         embedding_logger LInfo (BatchGenerated (length embeddings)) ;;
         ep_ret (Some embeddings)
     end)
    (fun e =>
       embedding_logger LError (FailedGenerateBatch e) ;;
       ep_ret None).

(** the dictionary of [get_model_info] *)
Record ModelInfo : Type := mkModelInfo {
  model_name : string;
  embedding_dimension : Z;
  model_size : string;
  description : string
}.

Definition get_model_info : ModelInfo :=
  {| model_name := "all-MiniLM-L6-v2";
     embedding_dimension := 384;
     model_size := "small";
     description := "Fast and efficient embedding model" |}.
End EmbeddingService.
End EmbeddingService.

Module routers.
Section embeddings.
Context {F : Float32}.
Local Open Scope ep_scope.

(** the bodies of the answers *)
Record EmbeddingBody : Type := mkEmbeddingBody {
  embedding_status : string;
  embedding_dimension : nat;
  embedding : Vector
}.

Record SearchBody : Type := mkSearchBody {
  search_status : string;
  query : string;
  results_count : nat;
  results_ids : list string;
  results_documents : list string;
  results_distances : list float
}.

Record AddBody : Type := mkAddBody {
  add_status : string;
  resume_id : string;
  message : string
}.

Record StatsBody : Type := mkStatsBody {
  stats_status : string;
  stats : Stats
}.

Record ModelInfoBody : Type := mkModelInfoBody {
  info_status : string;
  model_info : EmbeddingService.ModelInfo
}.

(** [not embedding], for [None] or a list *)
Definition not_embedding (embedding : option Vector) : bool :=
  match embedding with
  | None | Some [] => true
  | Some (_ :: _) => false
  end.

Definition embedding_of (embedding : option Vector) : Vector :=
  match embedding with Some v => v | None => [] end.

(** the [try] of every route:
    [except Exception as e: logger.error(...); raise HTTPException(400, str(e))] *)
Definition route {A} (body : Ep A) : Ep A :=
  ep_try body
         (fun e =>
            router_logger LError (RouterError e) ;;
            throw (HTTPException 400 (Str e))).

Definition generate_embedding (text : string) : Ep EmbeddingBody :=
  route
    (embedding <- EmbeddingService.generate_embedding text ;;
     if not_embedding embedding then
       throw (HTTPException 400 (Literal "Failed to generate embedding"))
     else
       ep_ret {| embedding_status := "success";
                 embedding_dimension := length (embedding_of embedding);
                 embedding := firstn 10 (embedding_of embedding) |}).

Definition search_resumes (query_text : string) (n_results : Z)
  : Ep SearchBody :=
  route
    (query_embedding <- EmbeddingService.generate_embedding query_text ;;
     if not_embedding query_embedding then
       throw (HTTPException 400 (Literal "Failed to generate query embedding"))
     else
       results <- call (search_resumes (embedding_of query_embedding)
                                       n_results) ;;
       match results with
       | None => throw (HTTPException 400 (Literal "Search failed"))
       | Some results =>
           ep_ret {| search_status := "success";
                     query := query_text;
                     results_count := length (ids results);
                     results_ids := ids results;
                     results_documents := documents results;
                     results_distances := distances results |}
       end).

Definition add_resume (resume_id resume_text : string)
           (metadata : option Attributes) : Ep AddBody :=
  route
    (embedding <- EmbeddingService.generate_embedding resume_text ;;
     if not_embedding embedding then
       throw (HTTPException 400 (Literal "Failed to generate embedding"))
     else
       success <- call (add_resume resume_id resume_text
                                   (embedding_of embedding) metadata) ;;
       if negb success then
         throw (HTTPException 400 (Literal "Failed to add resume"))
       else
         ep_ret {| add_status := "success";
                   resume_id := resume_id;
                   message := "Resume added successfully" |}).

Definition get_stats : Ep StatsBody :=
  route
    (stats <- call get_collection_stats ;;
     ep_ret {| stats_status := "success"; stats := stats |}).

Definition get_model_info : Ep ModelInfoBody :=
  route
    (ep_ret {| info_status := "success";
               model_info := EmbeddingService.get_model_info |}).
End embeddings.
End routers.

(** what a route answers, and the application it leaves *)
Definition reply {F : Float32} {A} (m : Ep A) (a : App) : thrown A :=
  fst (m a).

Definition left_by {F : Float32} {A} (m : Ep A) (a : App) : App :=
  snd (m a).

(** the request is refused with status 400 *)
Definition refused {A} (r : thrown A) : Prop :=
  exists detail, r = Threw (HTTPException 400 detail).

(** what [EmbeddingService.generate_embedding] returns: the embedding of
    the loaded model, [None] when the model is not loaded or raises *)
Definition generated {F : Float32} (a : App) (text : string) : option Vector :=
  match model a with
  | None => None
  | Some m =>
      match encode m text with
      | Returned v => Some v
      | Raised _ => None
      end
  end.

Ltac unfold_ep :=
  unfold reply, left_by, routers.generate_embedding, routers.search_resumes,
    routers.add_resume, routers.get_stats, routers.get_model_info,
    routers.route, EmbeddingService.generate_embedding,
    EmbeddingService.generate_embeddings_batch, call, of_encoder,
    embedding_logger, router_logger, get_model, ep_try, ep_bind, ep_ret,
    throw in *.

(** an encoder of the exact instance: the text "engineer" as the first
    unit vector, any other text as the second *)
Definition toy_model : @SentenceTransformer ExactZ :=
  {| encode := fun text =>
                 Returned (if String.eqb text "engineer"
                           then unit_vec 0 else unit_vec 1);
     encode_batch := fun texts =>
                       Returned (map (fun text =>
                                        if String.eqb text "engineer"
                                        then unit_vec 0 else unit_vec 1)
                                     texts) |}.

(** the application once [routers/embeddings.py] is imported: it calls
    [FAISSService.initialize()] *)
Definition imported (m : option SentenceTransformer) : @App ExactZ :=
  {| faiss := started; model := m; embedding_log := []; router_log := [] |}.

(** * The proofs *)

(** ** Dictionaries *)

Section DictFacts.
Context {K V : Type} (eqb : K -> K -> bool).
Hypothesis eqb_spec : forall x y, reflect (x = y) (eqb x y).

Lemma eqb_same (k : K) : eqb k k = true.
Proof. destruct (eqb_spec k k); congruence. Qed.

Lemma eqb_diff (k k' : K) : k <> k' -> eqb k k' = false.
Proof. destruct (eqb_spec k k'); congruence. Qed.

Lemma dict_get_set_same (k : K) (v : V) (m : dict K V) :
  dict_get eqb k (dict_set eqb k v m) = Some v.
Proof.
  induction m as [|[k' v'] m IH]; cbn.
  - now rewrite eqb_same.
  - destruct (eqb k k') eqn:E; cbn; rewrite E; auto.
Qed.

Lemma dict_get_set_other (k k' : K) (v : V) (m : dict K V) :
  k <> k' ->
  dict_get eqb k' (dict_set eqb k v m) = dict_get eqb k' m.
Proof.
  intros Hne. induction m as [|[k0 v0] m IH]; cbn.
  - rewrite eqb_diff; auto.
  - destruct (eqb_spec k k0) as [->|]; cbn.
    + rewrite eqb_diff; auto.
    + now rewrite IH.
Qed.

Lemma dict_mem_set (k k' : K) (v : V) (m : dict K V) :
  dict_mem eqb k' (dict_set eqb k v m) = eqb k' k || dict_mem eqb k' m.
Proof.
  unfold dict_mem. destruct (eqb_spec k' k) as [->|Hne]; cbn.
  - now rewrite dict_get_set_same.
  - rewrite dict_get_set_other; auto.
Qed.

Lemma dict_set_fresh (k : K) (v : V) (m : dict K V) :
  dict_mem eqb k m = false -> dict_set eqb k v m = m ++ [(k, v)].
Proof.
  unfold dict_mem. induction m as [|[k' v'] m IH]; cbn; auto.
  destruct (eqb k k'); [discriminate|]. intros H. now rewrite IH.
Qed.

Lemma dict_keys_set_mem (k : K) (v : V) (m : dict K V) :
  dict_mem eqb k m = true ->
  dict_keys (dict_set eqb k v m) = dict_keys m.
Proof.
  unfold dict_mem, dict_keys. induction m as [|[k' v'] m IH]; cbn.
  - discriminate.
  - destruct (eqb k k'); cbn; auto. intros H. now rewrite IH.
Qed.

Lemma dict_get_del_same (k : K) (m : dict K V) :
  dict_get eqb k (dict_del eqb k m) = None.
Proof.
  unfold dict_del. induction m as [|[k' v'] m IH]; cbn; auto.
  destruct (eqb k k') eqn:E; cbn; auto. now rewrite E.
Qed.

Lemma dict_get_del_other (k k' : K) (m : dict K V) :
  k <> k' ->
  dict_get eqb k' (dict_del eqb k m) = dict_get eqb k' m.
Proof.
  intros Hne. unfold dict_del. induction m as [|[k0 v0] m IH]; cbn; auto.
  destruct (eqb_spec k k0) as [->|]; cbn.
  - rewrite eqb_diff; auto.
  - now rewrite IH.
Qed.

Lemma dict_mem_del (k k' : K) (m : dict K V) :
  dict_mem eqb k' (dict_del eqb k m) = negb (eqb k' k) && dict_mem eqb k' m.
Proof.
  unfold dict_mem. destruct (eqb_spec k' k) as [->|Hne]; cbn.
  - now rewrite dict_get_del_same.
  - rewrite dict_get_del_other; auto.
Qed.

Lemma dict_get_In (k : K) (v : V) (m : dict K V) :
  dict_get eqb k m = Some v -> In (k, v) m.
Proof.
  induction m as [|[k' v'] m IH]; cbn; [discriminate|].
  destruct (eqb_spec k k') as [->|]; intros H.
  - left. congruence.
  - right. auto.
Qed.

Lemma dict_mem_keys (k : K) (m : dict K V) :
  dict_mem eqb k m = true <-> In k (dict_keys m).
Proof.
  unfold dict_mem, dict_keys. induction m as [|[k' v'] m IH]; cbn.
  - split; [discriminate|tauto].
  - destruct (eqb_spec k k') as [->|Hne].
    + split; auto.
    + rewrite IH. split; auto. intros [H|H]; congruence.
Qed.
End DictFacts.

(** ** What each method does to the fields of the class *)

Section MethodFacts.
Context {F : Float32}.

Lemma _save_index_spec (w : World) :
  answer _save_index w = Returned tt /\
  service (after _save_index w) = service w.
Proof.
  destruct w as [[i m im] [fi fm wi wm xi xm] lg].
  unfold_py; cbn. destruct i; cbn; [destruct wi, xi|]; cbn; auto.
Qed.

Lemma _save_metadata_spec (w : World) :
  answer _save_metadata w = Returned tt /\
  service (after _save_metadata w) = service w.
Proof.
  destruct w as [[i m im] [fi fm wi wm xi xm] lg].
  unfold_py; cbn. destruct wm, xm; cbn; auto.
Qed.

Lemma initialize_spec (w : World) :
  answer initialize w = Returned tt /\
  service (after initialize w) =
    {| _index := Some (loaded_index (disk w));
       _metadata := loaded_metadata (disk w);
       _id_to_index := loaded_id_to_index (disk w) |} /\
  disk (after initialize w) = disk w.
Proof.
  destruct w as [[i m im] [fi fm wi wm xi xm] lg].
  unfold loaded_index, loaded_metadata, loaded_id_to_index, or_empty.
  unfold_py; cbn. destruct fi, fm as [| |[[fmm fmi]|]]; cbn; auto.
Qed.

Lemma add_resume_ok (w : World) (i : IndexFlatL2) id txt v attrs :
  _index (service w) = Some i ->
  Z.of_nat (length v) = d i ->
  answer (add_resume id txt v attrs) w = Returned true /\
  service (after (add_resume id txt v attrs) w) =
    {| _index := Some {| d := d i; xb := xb i ++ [v] |};
       _metadata := dict_set String.eqb id
                      {| text := txt; metadata := or_empty attrs |}
                      (_metadata (service w));
       _id_to_index := dict_set String.eqb id (ntotal i)
                         (_id_to_index (service w)) |}.
Proof.
  destruct w as [[i0 m im] [fi fm wi wm xi xm] lg]; cbn.
  intros -> Hd. unfold_py; cbn. unfold index_add.
  rewrite Hd, Z.eqb_refl. cbn.
  destruct wi, wm, xi, xm; cbn; destruct attrs; auto.
Qed.

Lemma add_resume_mismatch (w : World) (i : IndexFlatL2) id txt v attrs :
  _index (service w) = Some i ->
  Z.of_nat (length v) <> d i ->
  answer (add_resume id txt v attrs) w = Returned false /\
  service (after (add_resume id txt v attrs) w) = service w /\
  disk (after (add_resume id txt v attrs) w) = disk w.
Proof.
  destruct w as [[i0 m im] [fi fm wi wm xi xm] lg]; cbn.
  intros -> Hd. unfold_py; cbn. unfold index_add.
  apply Z.eqb_neq in Hd. rewrite Hd. cbn. auto.
Qed.

Lemma delete_resume_absent (w : World) id :
  dict_mem String.eqb id (_metadata (service w)) = false ->
  answer (delete_resume id) w = Returned false /\
  service (after (delete_resume id) w) = service w /\
  disk (after (delete_resume id) w) = disk w.
Proof.
  destruct w as [[i m im] [fi fm wi wm xi xm] lg]; cbn.
  intros Hm. unfold_py; cbn -[dict_mem]. rewrite Hm. cbn. auto.
Qed.

Lemma delete_resume_ok (w : World) id :
  dict_mem String.eqb id (_metadata (service w)) = true ->
  dict_mem String.eqb id (_id_to_index (service w)) = true ->
  answer (delete_resume id) w = Returned true /\
  service (after (delete_resume id) w) =
    {| _index := Some (new_IndexFlatL2 384);
       _metadata := dict_del String.eqb id (_metadata (service w));
       _id_to_index :=
         renumber (dict_del String.eqb id (_metadata (service w))) |}.
Proof.
  destruct w as [[i m im] [fi fm wi wm xi xm] lg]; cbn.
  intros Hm Him. unfold_py; cbn -[dict_mem]. rewrite Hm. cbn -[dict_mem].
  rewrite Hm. cbn -[dict_mem]. rewrite Him. cbn.
  destruct wi, wm, xi, xm; cbn; auto.
Qed.

(** an entry of [_metadata] without a position: the second [del]
    raises [KeyError] after the first has removed the entry *)
Lemma delete_resume_unbound (w : World) id :
  dict_mem String.eqb id (_metadata (service w)) = true ->
  dict_mem String.eqb id (_id_to_index (service w)) = false ->
  answer (delete_resume id) w = Returned false /\
  service (after (delete_resume id) w) =
    {| _index := _index (service w);
       _metadata := dict_del String.eqb id (_metadata (service w));
       _id_to_index := _id_to_index (service w) |}.
Proof.
  destruct w as [[i m im] [fi fm wi wm xi xm] lg]; cbn.
  intros Hm Him. unfold_py; cbn -[dict_mem]. rewrite Hm. cbn -[dict_mem].
  rewrite Hm. cbn -[dict_mem]. rewrite Him. cbn. auto.
Qed.

Lemma clear_collection_spec (w : World) :
  answer clear_collection w = Returned true /\
  service (after clear_collection w) =
    {| _index := Some (new_IndexFlatL2 384);
       _metadata := [];
       _id_to_index := [] |}.
Proof.
  destruct w as [[i m im] [fi fm wi wm xi xm] lg].
  unfold_py; cbn. destruct wi, wm, xi, xm; cbn; auto.
Qed.

Lemma get_collection_stats_spec (w : World) (i : IndexFlatL2) :
  _index (service w) = Some i ->
  answer get_collection_stats w =
    Returned {| total_items := ntotal i;
                dimension := Some 384;
                index_type := Some "IndexFlatL2" |} /\
  service (after get_collection_stats w) = service w.
Proof.
  destruct w as [[i0 m im] dk lg]; cbn. intros ->.
  unfold_py; cbn. auto.
Qed.

Lemma list_all_resumes_spec (w : World) :
  answer list_all_resumes w = Returned (dict_keys (_metadata (service w))) /\
  after list_all_resumes w = w.
Proof. destruct w as [s dk lg]. unfold_py; cbn. auto. Qed.

Lemma combine_fst_snd {A B} (l : list (A * B)) :
  combine (map fst l) (map snd l) = l.
Proof. induction l as [|[a b] l IH]; cbn; congruence. Qed.

Lemma search_resumes_empty (w : World) (i : IndexFlatL2) q k :
  _index (service w) = Some i ->
  ntotal i = 0 ->
  answer (search_resumes q k) w = Returned (Some empty_results) /\
  service (after (search_resumes q k) w) = service w.
Proof.
  destruct w as [[i0 m im] dk lg]; cbn. intros -> Hn.
  unfold_py; cbn. rewrite Hn. cbn. auto.
Qed.

Lemma search_resumes_ok (w : World) (i : IndexFlatL2) q k :
  _index (service w) = Some i ->
  ntotal i <> 0 ->
  Z.of_nat (length q) = d i ->
  0 < k ->
  answer (search_resumes q k) w =
    Returned (Some (fold_left
                      (collect (invert (_id_to_index (service w)))
                               (_metadata (service w)))
                      (labels i q (Z.min k (ntotal i)))
                      empty_results)) /\
  service (after (search_resumes q k) w) = service w.
Proof.
  destruct w as [[i0 m im] dk lg]; cbn. intros -> Hn Hq Hk.
  unfold_py; cbn. apply Z.eqb_neq in Hn. rewrite Hn. cbn.
  unfold index_search. rewrite Hq, Z.eqb_refl. cbn.
  assert (Hmin : (Z.min k (ntotal i) <=? 0) = false).
  { apply Z.leb_gt. apply Z.eqb_neq in Hn. unfold ntotal in *. lia. }
  rewrite Hmin. cbn. rewrite combine_fst_snd. auto.
Qed.

(** a search never raises, and leaves the fields as they were *)
Lemma search_resumes_total (w : World) (i : IndexFlatL2) q k :
  _index (service w) = Some i ->
  (exists r, answer (search_resumes q k) w = Returned r) /\
  service (after (search_resumes q k) w) = service w.
Proof.
  destruct w as [[i0 m im] dk lg]; cbn. intros ->.
  unfold_py; cbn. destruct (ntotal i =? 0); cbn; eauto.
  unfold index_search.
  destruct (negb (Z.of_nat (length q) =? d i)); cbn; eauto.
  destruct (Z.min k (ntotal i) <=? 0); cbn; eauto.
Qed.
End MethodFacts.

(** ** The ranking of [index.search] *)

Section RankFacts.
Context {F : Float32}.

Lemma rank_insert_perm (c : Z * float) (l : list (Z * float)) :
  Permutation (rank_insert c l) (c :: l).
Proof.
  induction l as [|h t IH]; cbn; auto.
  destruct (fle (snd c) (snd h)); auto.
  rewrite IH. apply perm_swap.
Qed.

Lemma rank_perm (l : list (Z * float)) : Permutation (rank l) l.
Proof.
  induction l as [|c l IH]; cbn; auto.
  rewrite rank_insert_perm. now constructor.
Qed.

Lemma enumerate_from_In {A} (l : list A) (n p : Z) (x : A) :
  In (p, x) (enumerate_from n l) <->
  n <= p /\ nth_error l (Z.to_nat (p - n)) = Some x.
Proof.
  revert n. induction l as [|a l IH]; intros n; cbn.
  - split; [tauto|]. intros [_ H]. destruct (Z.to_nat (p - n)); discriminate.
  - rewrite IH. split.
    + intros [H|[H1 H2]].
      * inversion H; subst. rewrite Z.sub_diag. cbn. split; [lia|auto].
      * split; [lia|].
        replace (Z.to_nat (p - n)) with (S (Z.to_nat (p - (n + 1)))) by lia.
        exact H2.
    + intros [H1 H2]. destruct (Z.eq_dec p n) as [->|Hne].
      * rewrite Z.sub_diag in H2. cbn in H2. left. congruence.
      * right. split; [lia|].
        replace (Z.to_nat (p - n)) with (S (Z.to_nat (p - (n + 1)))) in H2 by lia.
        exact H2.
Qed.

Lemma enumerate_from_length {A} (l : list A) (n : Z) :
  length (enumerate_from n l) = length l.
Proof. revert n. induction l; intros; cbn; auto. Qed.

Lemma enumerate_from_app {A} (l l' : list A) (n : Z) :
  enumerate_from n (l ++ l') =
  enumerate_from n l ++ enumerate_from (n + Z.of_nat (length l)) l'.
Proof.
  revert n. induction l as [|a l IH]; intros n; cbn -[Z.of_nat].
  - now rewrite Z.add_0_r.
  - rewrite IH. do 3 f_equal. lia.
Qed.

Lemma enumerate_from_increasing {A} (l : list A) (n : Z) :
  StronglySorted (fun a b : Z * A => fst a < fst b) (enumerate_from n l).
Proof.
  revert n. induction l as [|a l IH]; intros n; cbn; constructor; auto.
  apply Forall_forall. intros [p x] Hin.
  apply enumerate_from_In in Hin. cbn. lia.
Qed.

Section Ordered.
(** the distances that are compared, and what the comparison of
    floats satisfies on them (as it does on numbers) *)
Variable dists : list float.
Hypothesis fle_total :
  forall a b, In a dists -> In b dists -> fle a b = true \/ fle b a = true.
Hypothesis fle_trans :
  forall a b c, In a dists -> In b dists -> In c dists ->
                fle a b = true -> fle b c = true -> fle a c = true.

Lemma rank_insert_sorted (c : Z * float) (l : list (Z * float)) :
  In (snd c) dists ->
  Forall (fun x => In (snd x) dists) l ->
  Forall (fun x => fst c < fst x) l ->
  StronglySorted closer l ->
  StronglySorted closer (rank_insert c l).
Proof.
  intros Hc Hd Hpos Hs. induction Hs as [|h t Hs IH Hh]; cbn.
  - repeat constructor.
  - inversion Hd as [|? ? Hhd Htd]; subst.
    inversion Hpos as [|? ? Hhp Htp]; subst.
    destruct (fle (snd c) (snd h)) eqn:E.
    + constructor; [constructor; auto|].
      constructor; [split; auto|].
      rewrite Forall_forall in *. intros x Hx. split; auto.
      eapply fle_trans; [| | | exact E |]; auto. apply (Hh x Hx).
    + constructor; auto.
      apply Forall_forall. intros x Hx.
      apply (Permutation_in _ (rank_insert_perm c t)) in Hx.
      destruct Hx as [<-|Hx].
      * split; [|congruence].
        destruct (fle_total (snd c) (snd h)); auto. congruence.
      * rewrite Forall_forall in Hh. auto.
Qed.

Lemma rank_sorted (l : list (Z * float)) :
  Forall (fun x => In (snd x) dists) l ->
  StronglySorted (fun a b => fst a < fst b) l ->
  StronglySorted closer (rank l).
Proof.
  intros Hd Hs. induction Hs as [|c l Hs IH Hc]; cbn.
  - constructor.
  - inversion Hd; subst. apply rank_insert_sorted; auto.
    + apply Forall_forall. intros x Hx.
      apply (Permutation_in _ (rank_perm l)) in Hx.
      rewrite Forall_forall in *. auto.
    + apply Forall_forall. intros x Hx.
      apply (Permutation_in _ (rank_perm l)) in Hx.
      rewrite Forall_forall in Hc. auto.
Qed.
End Ordered.

Lemma In_firstn {A} (n : nat) (l : list A) (x : A) :
  In x (firstn n l) -> In x l.
Proof.
  revert n. induction l as [|a l IH]; intros [|n]; cbn; try tauto.
  intros [H|H]; eauto.
Qed.

Lemma In_skipn {A} (n : nat) (l : list A) (x : A) :
  In x (skipn n l) -> In x l.
Proof.
  revert n. induction l as [|a l IH]; intros [|n]; cbn; try tauto.
  intros H; eauto.
Qed.

Lemma StronglySorted_firstn {A} (R : A -> A -> Prop) (n : nat) (l : list A) :
  StronglySorted R l -> StronglySorted R (firstn n l).
Proof.
  intros Hs. revert n. induction Hs as [|a l Hs IH Ha]; intros [|n]; cbn;
    try constructor; auto.
  apply Forall_forall. intros x Hx. apply In_firstn in Hx.
  rewrite Forall_forall in Ha. auto.
Qed.

(** what is left out of the first [n] of a ranking ranks after them *)
Lemma StronglySorted_firstn_skipn {A} (R : A -> A -> Prop) (n : nat)
      (l : list A) (x y : A) :
  StronglySorted R l ->
  In x (firstn n l) -> In y (skipn n l) -> R x y.
Proof.
  intros Hs. revert n. induction Hs as [|a l Hs IH Ha]; intros [|n]; cbn;
    try tauto.
  intros [<-|Hx] Hy.
  - rewrite Forall_forall in Ha. apply Ha. eapply In_skipn; eauto.
  - eauto.
Qed.

(** a candidate that no other reaches or ties comes first *)
Lemma rank_app_nearest (l : list (Z * float)) (c : Z * float) :
  (forall x, In x l -> fle (snd x) (snd c) = false) ->
  rank (l ++ [c]) = c :: rank l.
Proof.
  induction l as [|h t IH]; intros H; cbn; auto.
  rewrite IH by (intros; apply H; now right). cbn.
  rewrite (H h) by now left. reflexivity.
Qed.
End RankFacts.

(** ** From positions back to ids *)

Section SearchFacts.
Context {F : Float32}.

Lemma In_dict_mem {V} (k : string) (v : V) (m : dict string V) :
  In (k, v) m -> dict_mem String.eqb k m = true.
Proof.
  intros H. apply (dict_mem_keys String.eqb String.eqb_spec).
  unfold dict_keys. change k with (fst (k, v)). now apply in_map.
Qed.

Lemma invert_fold_get (m : dict string Z) (acc : dict Z string) p id :
  dict_get Z.eqb p
    (fold_left (fun acc kv => dict_set Z.eqb (snd kv) (fst kv) acc) m acc)
    = Some id ->
  In (id, p) m \/ dict_get Z.eqb p acc = Some id.
Proof.
  revert acc. induction m as [|[k v] m IH]; intros acc; cbn; auto.
  intros H. destruct (IH _ H) as [Hin|Hget]; auto.
  destruct (Z.eq_dec v p) as [->|Hne].
  - rewrite (dict_get_set_same Z.eqb Z.eqb_spec) in Hget.
    left. left. congruence.
  - rewrite (dict_get_set_other Z.eqb Z.eqb_spec) in Hget; auto.
Qed.

(** the id that [index_to_id] gives for a position is bound to it *)
Lemma invert_get_In (m : dict string Z) p id :
  dict_get Z.eqb p (invert m) = Some id -> In (id, p) m.
Proof.
  intros H. destruct (invert_fold_get _ _ _ _ H) as [|H0]; auto.
  discriminate.
Qed.

Lemma invert_fold_mem (m : dict string Z) (acc : dict Z string) p :
  (exists id, In (id, p) m) \/ dict_mem Z.eqb p acc = true ->
  dict_mem Z.eqb p
    (fold_left (fun acc kv => dict_set Z.eqb (snd kv) (fst kv) acc) m acc)
    = true.
Proof.
  revert acc. induction m as [|[k v] m IH]; intros acc; cbn.
  - intros [[id []]|H]; auto.
  - intros H. apply IH.
    rewrite (dict_mem_set Z.eqb Z.eqb_spec).
    destruct H as [[id [Hid|Hid]]|H].
    + inversion Hid; subst. right. now rewrite Z.eqb_refl.
    + left; eauto.
    + right. rewrite H. apply orb_true_r.
Qed.

(** every bound position has an id in [index_to_id] *)
Lemma invert_mem (m : dict string Z) p id :
  In (id, p) m -> dict_mem Z.eqb p (invert m) = true.
Proof. intros H. apply invert_fold_mem. left; eauto. Qed.

Lemma invert_app (m : dict string Z) id p :
  invert (m ++ [(id, p)]) = dict_set Z.eqb p id (invert m).
Proof. unfold invert. now rewrite fold_left_app. Qed.

Lemma renumber_fold_mem (meta : dict string MetadataRecord) n acc id :
  dict_mem String.eqb id
    (fold_left (fun new_id_to_index entry =>
                  let '(idx, (resume_id, resume_data)) := entry in
                  dict_set String.eqb resume_id idx new_id_to_index)
               (enumerate_from n meta) acc) = true ->
  dict_mem String.eqb id acc = true \/ dict_mem String.eqb id meta = true.
Proof.
  revert n acc. induction meta as [|[k r] meta IH]; intros n acc; cbn -[dict_mem]; auto.
  intros H. apply IH in H. destruct H as [H|H].
  - rewrite (dict_mem_set String.eqb String.eqb_spec) in H.
    apply orb_true_iff in H. destruct H as [H|H]; auto.
    right. unfold dict_mem. cbn. now rewrite H.
  - right. unfold dict_mem in *. cbn. destruct (String.eqb id k); auto.
Qed.

(** [_rebuild_index] binds no id that [_metadata] does not hold *)
Lemma renumber_mem (meta : dict string MetadataRecord) id :
  dict_mem String.eqb id (renumber meta) = true ->
  dict_mem String.eqb id meta = true.
Proof.
  intros H. apply renumber_fold_mem in H. destruct H; auto. discriminate.
Qed.

Lemma collect_fold (inv : dict Z string) (meta : dict string MetadataRecord)
      (hits : list (Z * float)) (r0 : SearchResults) :
  let r := fold_left (collect inv meta) hits r0 in
  let kept := filter (bound inv) hits in
  exists new_ids,
    map Some new_ids = map (fun c => dict_get Z.eqb (fst c) inv) kept /\
    ids r = ids r0 ++ new_ids /\
    distances r = distances r0 ++ map snd kept /\
    documents r = documents r0 ++ map (text_of meta) new_ids /\
    metadatas r = metadatas r0 ++ map (metadata_of meta) new_ids.
Proof.
  cbv zeta. revert r0. induction hits as [|[p x] hits IH]; intros r0.
  - exists []. cbn. now rewrite !app_nil_r.
  - cbn [fold_left filter].
    assert (Hc : collect inv meta r0 (p, x) =
                 match dict_get Z.eqb p inv with
                 | Some id =>
                     {| ids := ids r0 ++ [id];
                        distances := distances r0 ++ [x];
                        documents := documents r0 ++ [text_of meta id];
                        metadatas := metadatas r0 ++ [metadata_of meta id] |}
                 | None => r0
                 end) by reflexivity.
    assert (Hb : bound inv (p, x) =
                 match dict_get Z.eqb p inv with
                 | Some _ => true
                 | None => false
                 end) by reflexivity.
    rewrite Hc, Hb. clear Hc Hb.
    destruct (dict_get Z.eqb p inv) as [id|] eqn:E.
    + destruct (IH {| ids := ids r0 ++ [id];
                      distances := distances r0 ++ [x];
                      documents := documents r0 ++ [text_of meta id];
                      metadatas := metadatas r0 ++ [metadata_of meta id] |})
        as (new_ids & H1 & H2 & H3 & H4 & H5).
      exists (id :: new_ids). cbn [map ids distances documents metadatas fst snd] in *.
      rewrite H1, H2, H3, H4, H5, E, <- !app_assoc. cbn. auto.
    + apply IH.
Qed.
End SearchFacts.

(** ** Which methods keep the fields consistent *)

Section Consistency.
Context {F : Float32}.

Lemma consistent_spec (s : FAISSService) :
  consistent s = true <->
  forall id, dict_mem String.eqb id (_metadata s) = true ->
             exists p i, dict_get String.eqb id (_id_to_index s) = Some p /\
                         _index s = Some i /\ 0 <= p < ntotal i.
Proof.
  unfold consistent. rewrite forallb_forall. split.
  - intros H id Hid.
    apply (dict_mem_keys String.eqb String.eqb_spec) in Hid.
    specialize (H id Hid). unfold slot_ok in H.
    destruct (dict_get String.eqb id (_id_to_index s)) as [p|]; [|discriminate].
    destruct (_index s) as [i|]; [|discriminate].
    exists p, i. apply andb_true_iff in H. destruct H as [H1 H2].
    apply Z.leb_le in H1. apply Z.ltb_lt in H2. auto.
  - intros H id Hid.
    apply (dict_mem_keys String.eqb String.eqb_spec) in Hid.
    destruct (H id Hid) as (p & i & Hp & Hi & Hr). unfold slot_ok.
    rewrite Hp, Hi. apply andb_true_iff.
    split; [apply Z.leb_le|apply Z.ltb_lt]; lia.
Qed.

Lemma ntotal_add (i : IndexFlatL2) (v : Vector) :
  ntotal {| d := d i; xb := xb i ++ [v] |} = ntotal i + 1.
Proof. unfold ntotal; cbn. rewrite length_app; cbn. lia. Qed.

(** [add_resume] keeps the fields consistent, whether it succeeds or not *)
Lemma add_resume_consistent (w : World) (i : IndexFlatL2) id txt v attrs :
  _index (service w) = Some i ->
  consistent (service w) = true ->
  consistent (service (after (add_resume id txt v attrs) w)) = true.
Proof.
  intros Hi Hc. destruct (Z.eq_dec (Z.of_nat (length v)) (d i)) as [Hd|Hd].
  - destruct (add_resume_ok w i id txt v attrs Hi Hd) as [_ ->].
    rewrite consistent_spec in *. cbn. intros id' Hid'.
    rewrite (dict_mem_set String.eqb String.eqb_spec) in Hid'.
    destruct (String.eqb_spec id' id) as [Heq|Hne].
    + subst id'. rewrite (dict_get_set_same String.eqb String.eqb_spec).
      eexists _, _. repeat split; eauto.
      * unfold ntotal. lia.
      * rewrite ntotal_add. lia.
    + rewrite (dict_get_set_other String.eqb String.eqb_spec) by congruence.
      cbn in Hid'. destruct (Hc id' Hid') as (p & i0 & Hp & Hi0 & Hr).
      rewrite Hi in Hi0. inversion Hi0; subst i0.
      eexists _, _. repeat split; eauto; try lia.
      rewrite ntotal_add. lia.
  - destruct (add_resume_mismatch w i id txt v attrs Hi Hd) as (_ & -> & _).
    exact Hc.
Qed.

Lemma clear_collection_consistent (w : World) :
  consistent (service (after clear_collection w)) = true.
Proof. destruct (clear_collection_spec w) as [_ ->]. reflexivity. Qed.

(** [delete_resume] numbers the entries that remain and leaves the
    new index without a vector: nothing is left consistent unless
    nothing remains *)
Lemma delete_resume_inconsistent (w : World) id :
  dict_mem String.eqb id (_metadata (service w)) = true ->
  dict_mem String.eqb id (_id_to_index (service w)) = true ->
  dict_del String.eqb id (_metadata (service w)) <> [] ->
  consistent (service (after (delete_resume id) w)) = false.
Proof.
  intros Hm Hi Hrest. destruct (delete_resume_ok w id Hm Hi) as [_ ->].
  destruct (dict_del String.eqb id (_metadata (service w)))
    as [|[k r] rest]; [congruence|].
  unfold consistent, slot_ok. cbn.
  destruct (dict_get String.eqb k _); cbn; auto.
  replace (z <? ntotal (new_IndexFlatL2 384)) with (z <? 0) by reflexivity.
  destruct (0 <=? z) eqn:E1, (z <? 0) eqn:E2; cbn; auto. lia.
Qed.
End Consistency.

(** ** Deleting *)

(** C1 (the code departs from it).  After [delete_resume], the count is the
    count before minus one and every remaining id is found at the distance
    of its own vector as before.  On two resumes: the count goes from 2 to
    0 instead of 1, and the resume that remains, found at distance 0
    before, is not found any more. *)
Theorem delete_resume_loses_the_vectors :
  answer get_collection_stats two_resumes = Returned (stats_of 2) /\
  answer (search_resumes (unit_vec 1) 1) two_resumes =
    Returned (Some {| ids := ["r2"]; distances := [0];
                      documents := ["doctor"]; metadatas := [[]] |}) /\
  answer (delete_resume "r1") two_resumes = Returned true /\
  answer list_all_resumes r1_deleted = Returned ["r2"] /\
  answer get_collection_stats r1_deleted = Returned (stats_of 0) /\
  answer (search_resumes (unit_vec 1) 1) r1_deleted =
    Returned (Some empty_results).
Proof. by_computation. Qed.

(** C2 (the code departs from it).  Every operation keeps the fields
    consistent.  [add_resume] and [clear_collection] do; [delete_resume]
    does not: with two resumes the fields are consistent, and after the
    deletion of one the other is bound to position 0 of an index that
    holds no vector. *)
Theorem delete_resume_breaks_consistency :
  consistent (service two_resumes) = true /\
  answer (delete_resume "r1") two_resumes = Returned true /\
  dict_mem String.eqb "r2" (_metadata (service r1_deleted)) = true /\
  dict_get String.eqb "r2" (_id_to_index (service r1_deleted)) = Some 0 /\
  option_map ntotal (_index (service r1_deleted)) = Some 0 /\
  consistent (service r1_deleted) = false.
Proof. by_computation. Qed.

(** C7 (the code departs from it).  [delete_resume] of an id that is
    present removes it from both dictionaries and rebuilds the index and
    the positions from the entries that remain.  The positions are
    rebuilt; the index is not: it is the new, empty index, though an entry
    remains. *)
Theorem delete_resume_rebuilds_no_vector :
  dict_mem String.eqb "r1" (_metadata (service two_resumes)) = true /\
  answer (delete_resume "r1") two_resumes = Returned true /\
  service r1_deleted =
    {| _index := Some (new_IndexFlatL2 384);
       _metadata := [("r2", {| text := "doctor"; metadata := [] |})];
       _id_to_index := [("r2", 0)] |} /\
  option_map xb (_index (service two_resumes)) =
    Some [unit_vec 0; unit_vec 1].
Proof. by_computation. Qed.

(** ** Adding an id that is present *)

(** C3 (as stated, refuted).  Adding an id that is present fails and
    leaves the state unchanged.  With "r1" present, a second
    [add_resume] of "r1" returns [True], and the index, the entry of
    "r1" and its position have changed. *)
Lemma add_resume_twice_succeeds :
  dict_mem String.eqb "r1" (_metadata (service one_resume)) = true /\
  answer (add_resume "r1" "manager" (unit_vec 1) None) one_resume
    = Returned true /\
  service one_resume =
    {| _index := Some {| d := 384; xb := [unit_vec 0] |};
       _metadata := [("r1", {| text := "engineer"; metadata := [] |})];
       _id_to_index := [("r1", 0)] |} /\
  service (after (add_resume "r1" "manager" (unit_vec 1) None) one_resume) =
    {| _index := Some {| d := 384; xb := [unit_vec 0; unit_vec 1] |};
       _metadata := [("r1", {| text := "manager"; metadata := [] |})];
       _id_to_index := [("r1", 1)] |}.
Proof. by_computation. Qed.

(** C3 (amended).  There is no duplicate-id failure: with the id
    present, [add_resume] returns [True] for every embedding of the
    dimension of the index, appends it, and replaces the entry and the
    position of the id; it fails only for an embedding of another
    dimension, and then the fields are unchanged. *)
Theorem add_resume_present_id {F : Float32} (w : World) (i : IndexFlatL2)
        (id txt : string) (v : Vector) (attrs : option Attributes) :
  _index (service w) = Some i ->
  dict_mem String.eqb id (_metadata (service w)) = true ->
  let w' := after (add_resume id txt v attrs) w in
  (Z.of_nat (length v) = d i ->
   answer (add_resume id txt v attrs) w = Returned true /\
   _index (service w') = Some {| d := d i; xb := xb i ++ [v] |} /\
   dict_get String.eqb id (_metadata (service w')) =
     Some {| text := txt; metadata := or_empty attrs |} /\
   dict_get String.eqb id (_id_to_index (service w')) = Some (ntotal i)) /\
  (Z.of_nat (length v) <> d i ->
   answer (add_resume id txt v attrs) w = Returned false /\
   service w' = service w).
Proof.
  intros Hi _ w'. subst w'. split; intros Hd.
  - destruct (add_resume_ok w i id txt v attrs Hi Hd) as [-> ->]. cbn.
    rewrite !(dict_get_set_same String.eqb String.eqb_spec). auto.
  - destruct (add_resume_mismatch w i id txt v attrs Hi Hd) as (-> & -> & _).
    auto.
Qed.

Lemma add_resume_present_id_witness :
  let w' := after (add_resume "r1" "manager" (unit_vec 1) None) one_resume in
  (Z.of_nat (length (unit_vec 1)) = 384 ->
   answer (add_resume "r1" "manager" (unit_vec 1) None) one_resume
     = Returned true /\
   _index (service w') = Some {| d := 384; xb := [unit_vec 0] ++ [unit_vec 1] |} /\
   dict_get String.eqb "r1" (_metadata (service w')) =
     Some {| text := "manager"; metadata := or_empty None |} /\
   dict_get String.eqb "r1" (_id_to_index (service w')) = Some 1) /\
  (Z.of_nat (length (unit_vec 1)) <> 384 ->
   answer (add_resume "r1" "manager" (unit_vec 1) None) one_resume
     = Returned false /\
   service w' = service one_resume).
Proof.
  apply (add_resume_present_id one_resume {| d := 384; xb := [unit_vec 0] |}
           "r1" "manager" (unit_vec 1) None); vm_compute; reflexivity.
Defined.

(** ** Loading *)

(** C9 (as stated, refuted).  A file that is present and malformed makes
    the load fail.  [initialize] returns on either damaged file: the
    fields that the file would have filled start empty, the others are
    loaded, and the error is in the log only. *)
Lemma initialize_survives_malformed_files :
  (let w := {| service := fields_at_import; disk := damaged_index; log := [] |} in
   answer initialize w = Returned tt /\
   service (after initialize w) =
     {| _index := Some (new_IndexFlatL2 384);
        _metadata := [("r1", {| text := "engineer"; metadata := [] |})];
        _id_to_index := [("r1", 0)] |} /\
   log (after initialize w) =
     [(LError, FailedLoadIndex RuntimeError); (LInfo, LoadedMetadata 1);
      (LInfo, ServiceInitialized)]) /\
  (let w := {| service := fields_at_import; disk := damaged_metadata; log := [] |} in
   answer initialize w = Returned tt /\
   service (after initialize w) =
     {| _index := Some {| d := 384; xb := [unit_vec 0] |};
        _metadata := [];
        _id_to_index := [] |} /\
   log (after initialize w) =
     [(LInfo, LoadedIndex 1); (LError, FailedLoadMetadata JSONDecodeError);
      (LInfo, ServiceInitialized)]).
Proof. by_computation. Qed.

(** C9 (amended).  [initialize] always returns, writes nothing, and
    loads each file on its own.  An absent file makes the fields it
    would fill start empty (a new index of dimension 384, empty
    dictionaries).  A file that cannot be read (an index file that is
    no index; a metadata file that is no JSON, or JSON that is no
    object) is logged as an error and its fields start empty as for an
    absent file.  An index file that can be read is loaded; a metadata
    file that holds an object with dictionaries under its keys is
    loaded as it is, a missing key giving the empty dictionary, and the
    load is logged as done. *)
Theorem initialize_loads_each_file_alone {F : Float32} (w : World) :
  let w' := after initialize w in
  answer initialize w = Returned tt /\
  disk w' = disk w /\
  (FAISS_INDEX_PATH (disk w) = Absent ->
   _index (service w') = Some (new_IndexFlatL2 384)) /\
  (forall i, FAISS_INDEX_PATH (disk w) = Stored i ->
             _index (service w') = Some i) /\
  (FAISS_INDEX_PATH (disk w) = Malformed ->
   _index (service w') = Some (new_IndexFlatL2 384) /\
   In (LError, FailedLoadIndex RuntimeError) (log w')) /\
  (FAISS_METADATA_PATH (disk w) = Absent ->
   _metadata (service w') = [] /\ _id_to_index (service w') = []) /\
  (forall data, FAISS_METADATA_PATH (disk w) = Stored (JsonObject data) ->
                _metadata (service w') = or_empty (file_metadata data) /\
                _id_to_index (service w') = or_empty (file_id_to_index data) /\
                In (LInfo, LoadedMetadata
                             (length (or_empty (file_metadata data))))
                   (log w')) /\
  (FAISS_METADATA_PATH (disk w) = Malformed ->
   _metadata (service w') = [] /\ _id_to_index (service w') = [] /\
   In (LError, FailedLoadMetadata JSONDecodeError) (log w')) /\
  (FAISS_METADATA_PATH (disk w) = Stored JsonOther ->
   _metadata (service w') = [] /\ _id_to_index (service w') = [] /\
   In (LError, FailedLoadMetadata AttributeError) (log w')).
Proof.
  destruct w as [[i m im] [fi fm wi wm xi xm] lg]. cbv zeta.
  unfold or_empty. unfold_py; cbn.
  destruct fi, fm as [| |[[fmm fmi]|]]; cbn;
    repeat split; try discriminate; try congruence; intros;
    repeat match goal with
           | H : Stored _ = Stored _ |- _ => inversion H; subst; clear H
           end; cbn; auto;
    rewrite ?in_app_iff; cbn; auto 10.
Qed.

(** ** Saving *)

(** C8 (as stated, refuted).  A failed write is surfaced to the caller.
    On a disk that takes no write, [add_resume], [delete_resume] and
    [clear_collection] return [True] as they do when the writes succeed;
    no file has been written. *)
Lemma mutations_hide_write_failures :
  let add := add_resume "r1" "engineer" (unit_vec 0) None in
  answer add started_unwritable = Returned true /\
  disk (after add started_unwritable) = no_files false /\
  answer (delete_resume "r1") (after add started_unwritable) = Returned true /\
  answer clear_collection (after add started_unwritable) = Returned true /\
  answer add started = Returned true /\
  FAISS_INDEX_PATH (disk (after add started)) =
    Stored {| d := 384; xb := [unit_vec 0] |}.
Proof. by_computation. Qed.

(** C8 (amended).  For every mutating operation on a loaded index, a
    failure of the writes is not surfaced: the operation returns what
    it returns on any other disk, and leaves the same fields.  An
    operation that returns [True] has logged as an error every failure
    that a write has raised: that of the metadata file always, that of
    the index file unless it came when the file was closed, which
    [faiss.write_index] does not report, so that the save is logged as
    done. *)
Theorem write_failures_are_logged_not_surfaced {F : Float32}
        (op : Mutation) (s : FAISSService) (dk : Disk)
        (lg : list (Level * Message)) :
  _index s <> None ->
  index_writable dk = false ->
  metadata_writable dk = false ->
  let w := {| service := s; disk := dk; log := lg |} in
  (forall dk' lg',
      let w' := {| service := s; disk := dk'; log := lg' |} in
      answer (perform op) w = answer (perform op) w' /\
      service (after (perform op) w) = service (after (perform op) w')) /\
  (answer (perform op) w = Returned true ->
   exists entries,
     log (after (perform op) w) = lg ++ entries /\
     (index_fault dk <> AtClose ->
      In (LError, FailedSaveIndex RuntimeError) entries) /\
     (index_fault dk = AtClose -> In (LInfo, SavedIndex) entries) /\
     In (LError, FailedSaveMetadata OSError) entries).
Proof.
  destruct s as [[i|] m im]; [|cbn; intros H; now destruct H]. intros _.
  destruct dk as [fi fm wi wm xi xm]; cbn. intros -> ->. cbv zeta.
  destruct op as [id txt v attrs|id|]; cbn [perform].
  - split; [intros [fi' fm' wi' wm' xi' xm'] lg'|]; unfold_py; cbn;
      unfold index_add; destruct (Z.of_nat (length v) =? d i); cbn;
      try (destruct wi', wm', xi', xm'; cbn);
      destruct xi, xm; cbn; auto;
      try discriminate;
      (intros _; rewrite <- ?app_assoc; eexists; split; [reflexivity|];
       cbn; repeat split; intros; try congruence; auto 10).
  - split; [intros [fi' fm' wi' wm' xi' xm'] lg'|]; unfold_py; cbn -[dict_mem];
      destruct (dict_mem String.eqb id m) eqn:Em; cbn -[dict_mem];
      rewrite ?Em; cbn -[dict_mem];
      destruct (dict_mem String.eqb id im) eqn:Ei; cbn -[dict_mem];
      try (destruct wi', wm', xi', xm'; cbn);
      destruct xi, xm; cbn; auto;
      try discriminate;
      (intros _; rewrite <- ?app_assoc; eexists; split; [reflexivity|];
       cbn; repeat split; intros; try congruence; auto 10).
  - split; [intros [fi' fm' wi' wm' xi' xm'] lg'|]; unfold_py; cbn;
      try (destruct wi', wm', xi', xm'; cbn);
      destruct xi, xm; cbn; auto;
      (intros _; rewrite <- ?app_assoc; eexists; split; [reflexivity|];
       cbn; repeat split; intros; try congruence; auto 10).
Qed.

Lemma write_failures_are_logged_not_surfaced_witness :
  let op := Add "r1" "engineer" (unit_vec 0) None in
  let w := {| service := service started; disk := no_files false; log := [] |} in
  (forall dk' lg',
      let w' := {| service := service started; disk := dk'; log := lg' |} in
      answer (perform op) w = answer (perform op) w' /\
      service (after (perform op) w) = service (after (perform op) w')) /\
  (answer (perform op) w = Returned true ->
   exists entries,
     log (after (perform op) w) = [] ++ entries /\
     (index_fault (no_files false) <> AtClose ->
      In (LError, FailedSaveIndex RuntimeError) entries) /\
     (index_fault (no_files false) = AtClose ->
      In (LInfo, SavedIndex) entries) /\
     In (LError, FailedSaveMetadata OSError) entries).
Proof.
  apply (write_failures_are_logged_not_surfaced
           (Add "r1" "engineer" (unit_vec 0) None) (service started)
           (no_files false) []).
  - vm_compute. discriminate.
  - reflexivity.
  - reflexivity.
Defined.

(** ** After a deletion *)

Section AfterDelete.
Context {F : Float32}.

Lemma search_resumes_cases (w : World) (i : IndexFlatL2) q k :
  _index (service w) = Some i ->
  answer (search_resumes q k) w = Returned None \/
  answer (search_resumes q k) w = Returned (Some empty_results) \/
  answer (search_resumes q k) w =
    Returned (Some (fold_left
                      (collect (invert (_id_to_index (service w)))
                               (_metadata (service w)))
                      (labels i q (Z.min k (ntotal i)))
                      empty_results)).
Proof.
  destruct w as [[i0 m im] dk lg]; cbn. intros ->.
  unfold_py; cbn. destruct (ntotal i =? 0); cbn; auto.
  unfold index_search.
  destruct (negb (Z.of_nat (length q) =? d i)); cbn; auto.
  destruct (Z.min k (ntotal i) <=? 0); cbn; auto.
  rewrite combine_fst_snd. auto.
Qed.

(** a search returns ids of [_id_to_index] only *)
Lemma search_resumes_ids (w : World) (i : IndexFlatL2) q k res id :
  _index (service w) = Some i ->
  answer (search_resumes q k) w = Returned (Some res) ->
  In id (ids res) ->
  dict_mem String.eqb id (_id_to_index (service w)) = true.
Proof.
  intros Hi Hres Hin.
  destruct (search_resumes_cases w i q k Hi) as [H|[H|H]];
    rewrite H in Hres; inversion Hres; subst res; clear Hres.
  - destruct Hin.
  - destruct (collect_fold (invert (_id_to_index (service w)))
                           (_metadata (service w))
                           (labels i q (Z.min k (ntotal i)))
                           empty_results)
      as (new_ids & Hnew & Hids & _).
    rewrite Hids in Hin. cbn in Hin.
    apply (in_map Some) in Hin. rewrite Hnew in Hin.
    apply in_map_iff in Hin. destruct Hin as ([p x] & Hget & _).
    apply invert_get_In in Hget. eapply In_dict_mem; eauto.
Qed.

Lemma delete_resume_gone (w : World) id :
  answer (delete_resume id) w = Returned true ->
  gone id (service (after (delete_resume id) w)).
Proof.
  intros Hret.
  destruct (dict_mem String.eqb id (_metadata (service w))) eqn:Em.
  - destruct (dict_mem String.eqb id (_id_to_index (service w))) eqn:Ei.
    + destruct (delete_resume_ok w id Em Ei) as [_ ->]. cbn.
      assert (Hdel : dict_mem String.eqb id
                       (dict_del String.eqb id (_metadata (service w))) = false).
      { rewrite (dict_mem_del String.eqb String.eqb_spec).
        now rewrite String.eqb_refl. }
      repeat split; auto; try discriminate.
      destruct (dict_mem String.eqb id
                  (renumber (dict_del String.eqb id (_metadata (service w)))))
        eqn:E; auto.
      apply renumber_mem in E. congruence.
    + destruct (delete_resume_unbound w id Em Ei) as [H _]. congruence.
  - destruct (delete_resume_absent w id Em) as [H _]. congruence.
Qed.

Lemma run_call_gone (w : World) id (c : Call) :
  adds id c = false ->
  gone id (service w) ->
  gone id (service (run_call w c)).
Proof.
  intros Hc (Hi & Hm & Him).
  destruct (_index (service w)) as [i|] eqn:Ei; [clear Hi|congruence].
  destruct c as [[id' txt v attrs|id'|]|q k| |]; cbn in *.
  - apply String.eqb_neq in Hc.
    destruct (Z.eq_dec (Z.of_nat (length v)) (d i)) as [Hd|Hd].
    + destruct (add_resume_ok w i id' txt v attrs Ei Hd) as [_ ->].
      unfold gone; cbn.
      rewrite !(dict_mem_set String.eqb String.eqb_spec), Hm, Him.
      apply String.eqb_neq in Hc. rewrite Hc. repeat split; auto.
      discriminate.
    + destruct (add_resume_mismatch w i id' txt v attrs Ei Hd) as (_ & -> & _).
      unfold gone. rewrite Ei. repeat split; auto. discriminate.
  - destruct (dict_mem String.eqb id' (_metadata (service w))) eqn:Em'.
    + assert (Hdel : dict_mem String.eqb id
                       (dict_del String.eqb id' (_metadata (service w))) = false).
      { rewrite (dict_mem_del String.eqb String.eqb_spec), Hm.
        apply andb_false_r. }
      destruct (dict_mem String.eqb id' (_id_to_index (service w))) eqn:Ei'.
      * destruct (delete_resume_ok w id' Em' Ei') as [_ ->].
        unfold gone; cbn. repeat split; auto; try discriminate.
        destruct (dict_mem String.eqb id
                    (renumber (dict_del String.eqb id' (_metadata (service w)))))
          eqn:E; auto.
        apply renumber_mem in E. congruence.
      * destruct (delete_resume_unbound w id' Em' Ei') as [_ ->].
        unfold gone; cbn. rewrite Ei. repeat split; auto. discriminate.
    + destruct (delete_resume_absent w id' Em') as (_ & -> & _).
      unfold gone. rewrite Ei. repeat split; auto. discriminate.
  - destruct (clear_collection_spec w) as [_ ->].
    unfold gone; cbn. repeat split; auto. discriminate.
  - destruct (search_resumes_total w i q k Ei) as [_ ->].
    unfold gone. rewrite Ei. repeat split; auto. discriminate.
  - destruct (get_collection_stats_spec w i Ei) as [_ ->].
    unfold gone. rewrite Ei. repeat split; auto. discriminate.
  - unfold gone. unfold_py; cbn. rewrite Ei. repeat split; auto.
    discriminate.
Qed.

Lemma run_calls_gone (calls : list Call) (w : World) id :
  existsb (adds id) calls = false ->
  gone id (service w) ->
  gone id (service (run_calls calls w)).
Proof.
  revert w. induction calls as [|c calls IH]; intros w Hc Hg; cbn in *; auto.
  apply orb_false_iff in Hc. destruct Hc as [Hc Hcs].
  apply IH; auto. now apply run_call_gone.
Qed.
End AfterDelete.

(** C5.  After a successful [delete_resume] of an id, no later search
    returns the id, for any query and any [n_results]: here after any
    calls of the service that do not add the id again (none, in
    particular).  The search returns, and the id is not among its ids. *)
Theorem deleted_id_is_not_found {F : Float32} (w : World) (id : string)
        (calls : list Call) (q : Vector) (k : Z) :
  answer (delete_resume id) w = Returned true ->
  existsb (adds id) calls = false ->
  exists r,
    answer (search_resumes q k)
           (run_calls calls (after (delete_resume id) w)) = Returned r /\
    forall res, r = Some res -> ~ In id (ids res).
Proof.
  intros Hdel Hcalls.
  pose proof (run_calls_gone calls _ id Hcalls (delete_resume_gone w id Hdel))
    as (Hi & _ & Him).
  destruct (_index (service (run_calls calls (after (delete_resume id) w))))
    as [i|] eqn:Ei; [|congruence].
  destruct (search_resumes_total _ i q k Ei) as [[r Hr] _].
  exists r. split; auto. intros res -> Hin.
  rewrite (search_resumes_ids _ i q k res id Ei Hr Hin) in Him. discriminate.
Qed.

Lemma deleted_id_is_not_found_witness :
  exists r,
    answer (search_resumes (unit_vec 0) 5)
           (run_calls [Mutate (Add "r3" "nurse" (unit_vec 0) None);
                       Search (unit_vec 1) 1]
                      (after (delete_resume "r1") two_resumes)) = Returned r /\
    forall res, r = Some res -> ~ In "r1" (ids res).
Proof.
  apply (deleted_id_is_not_found two_resumes "r1"
           [Mutate (Add "r3" "nurse" (unit_vec 0) None); Search (unit_vec 1) 1]
           (unit_vec 0) 5); vm_compute; reflexivity.
Defined.

(** ** Adding, then searching for the embedding just added *)

Section AddThenSearch.
Context {F : Float32}.

(** a vector of finite components is at distance zero from itself:
    every difference is zero, and zero squared and summed stays zero *)
Lemma fvec_L2sqr_self (v : Vector) :
  Forall (fun x => fsub x x = fzero) v ->
  fmul fzero fzero = fzero ->
  fadd fzero fzero = fzero ->
  fvec_L2sqr v v = fzero.
Proof.
  intros Hv Hmul Hadd. unfold fvec_L2sqr.
  induction Hv as [|x v Hx Hv IH]; cbn; auto.
  now rewrite Hx, Hmul, Hadd.
Qed.

Lemma candidates_add (i : IndexFlatL2) (q v : Vector) :
  candidates {| d := d i; xb := xb i ++ [v] |} q =
  candidates i q ++ [(ntotal i, fvec_L2sqr q v)].
Proof.
  unfold candidates, enumerate, ntotal; cbn [xb].
  rewrite map_app, enumerate_from_app, length_map. reflexivity.
Qed.

Lemma candidates_In (i : IndexFlatL2) (q : Vector) (c : Z * float) :
  In c (candidates i q) ->
  0 <= fst c /\
  exists x, nth_error (xb i) (Z.to_nat (fst c)) = Some x /\
            snd c = fvec_L2sqr q x.
Proof.
  destruct c as [p dist]. unfold candidates, enumerate. intros H.
  apply enumerate_from_In in H. destruct H as [Hp Hn]. cbn.
  split; auto. rewrite Z.sub_0_r in Hn.
  rewrite nth_error_map in Hn.
  destruct (nth_error (xb i) (Z.to_nat p)) as [x|]; [|discriminate].
  exists x. cbn in Hn. split; congruence.
Qed.
End AddThenSearch.

(** C6 (as stated, refuted).  [add_resume] of a new id, then
    [search_resumes] for its embedding with [n_results] 1, returns that
    id.  With "r1" stored under the same embedding, the search after
    adding "r2" returns "r1": both are at distance 0 and the lower
    position comes first. *)
Lemma add_then_search_finds_an_earlier_twin :
  dict_mem String.eqb "r2" (_metadata (service one_resume)) = false /\
  answer (add_resume "r2" "doctor" (unit_vec 0) None) one_resume
    = Returned true /\
  answer (search_resumes (unit_vec 0) 1)
         (after (add_resume "r2" "doctor" (unit_vec 0) None) one_resume) =
    Returned (Some {| ids := ["r1"]; distances := [0];
                      documents := ["engineer"]; metadatas := [[]] |}).
Proof. by_computation. Qed.

(** C6 (amended).  For every embedding [v] of the dimension of the
    index, at distance zero from itself, and every id that is not
    present, [add_resume] followed by [search_resumes v 1] returns that
    id as the single hit, at distance zero, provided that no embedding
    stored before is at a distance from [v] that is zero or less. *)
Theorem add_then_search_returns_the_id {F : Float32} (w : World)
        (i : IndexFlatL2) (id txt : string) (v : Vector)
        (attrs : option Attributes) :
  _index (service w) = Some i ->
  Z.of_nat (length v) = d i ->
  dict_mem String.eqb id (_metadata (service w)) = false ->
  dict_mem String.eqb id (_id_to_index (service w)) = false ->
  fvec_L2sqr v v = fzero ->
  (forall x, In x (xb i) -> fle (fvec_L2sqr v x) fzero = false) ->
  answer (add_resume id txt v attrs) w = Returned true /\
  answer (search_resumes v 1) (after (add_resume id txt v attrs) w) =
    Returned (Some {| ids := [id]; distances := [fzero];
                      documents := [txt];
                      metadatas := [or_empty attrs] |}).
Proof.
  intros Hi Hd _ Hfresh Hself Hfar.
  destruct (add_resume_ok w i id txt v attrs Hi Hd) as [Hret Hs].
  split; auto.
  set (i' := {| d := d i; xb := xb i ++ [v] |}) in *.
  assert (Hi' : _index (service (after (add_resume id txt v attrs) w)) = Some i')
    by now rewrite Hs.
  assert (Hn : ntotal i' = ntotal i + 1) by apply ntotal_add.
  assert (Hpos : 0 <= ntotal i) by (unfold ntotal; lia).
  destruct (search_resumes_ok _ i' v 1 Hi') as [-> _]; try lia; auto.
  rewrite Hs. cbn [_metadata _id_to_index].
  replace (Z.min 1 (ntotal i')) with 1 by lia.
  assert (Hnear : nearest i' v 1 = [(ntotal i, fzero)]).
  { unfold nearest. subst i'. rewrite candidates_add, Hself.
    rewrite filter_app. cbn [filter]. unfold reaches at 2. cbn [snd].
    rewrite fzero_lt_fmax. rewrite rank_app_nearest; [reflexivity|].
    intros c Hc. apply filter_In in Hc. destruct Hc as [Hc _].
    apply candidates_In in Hc.
    destruct Hc as (_ & x & Hx & ->). cbn [snd].
    apply Hfar. eapply nth_error_In; eauto. }
  unfold labels. rewrite Hnear. change (Z.to_nat 1) with 1%nat.
  cbn [length Nat.sub repeat app fold_left]. unfold collect.
  rewrite (dict_set_fresh String.eqb id (ntotal i) _ Hfresh), invert_app.
  rewrite (dict_get_set_same Z.eqb Z.eqb_spec).
  rewrite (dict_get_set_same String.eqb String.eqb_spec).
  reflexivity.
Qed.

Lemma add_then_search_returns_the_id_witness :
  answer (add_resume "r2" "doctor" (unit_vec 1) None) one_resume
    = Returned true /\
  answer (search_resumes (unit_vec 1) 1)
         (after (add_resume "r2" "doctor" (unit_vec 1) None) one_resume) =
    Returned (Some {| ids := ["r2"]; distances := [fzero];
                      documents := ["doctor"];
                      metadatas := [or_empty None] |}).
Proof.
  apply (add_then_search_returns_the_id one_resume
           {| d := 384; xb := [unit_vec 0] |} "r2" "doctor" (unit_vec 1) None);
    try (vm_compute; reflexivity).
  intros x [<-|[]]. vm_compute. reflexivity.
Defined.

(** ** Adding an id again: what is replaced and what is left behind *)

(** C10 (as stated, refuted).  In every state in which the id is
    present, [add_resume] of the id returns [True], ..., and leaves the
    embedding stored before at its position with no id bound to it.
    After the deletion of "r1", "r2" is present and bound to position 0
    of an index without vectors: adding "r2" again puts the new
    embedding at position 0 and binds "r2" to it, so no earlier
    embedding is left there and the position is bound.  And with "r1"
    present, adding it with an embedding of dimension 2 returns
    [False]. *)
Lemma add_resume_again_after_delete :
  dict_mem String.eqb "r2" (_metadata (service r1_deleted)) = true /\
  dict_get String.eqb "r2" (_id_to_index (service r1_deleted)) = Some 0 /\
  option_map xb (_index (service r1_deleted)) = Some [] /\
  (let w' := after (add_resume "r2" "surgeon" (unit_vec 2) None) r1_deleted in
   dict_get String.eqb "r2" (_id_to_index (service w')) = Some 0 /\
   option_map xb (_index (service w')) = Some [unit_vec 2]) /\
  ~ upserted r1_deleted "r2" "surgeon" (unit_vec 2) None /\
  dict_mem String.eqb "r1" (_metadata (service two_resumes)) = true /\
  answer (add_resume "r1" "manager" [1; 0] None) two_resumes = Returned false /\
  ~ upserted two_resumes "r1" "manager" [1; 0] None.
Proof.
  repeat split; try (vm_compute; reflexivity).
  - intros (_ & _ & _ & _ & i & i' & p & x & Hi & _ & _ & _ & Hx & _).
    vm_compute in Hi. inversion Hi; subst i. cbn in Hx.
    destruct (Z.to_nat p); discriminate.
  - intros (Hret & _). vm_compute in Hret. discriminate.
Qed.

(** C10 (amended).  In every state in which the id is present and bound
    to an occupied position of the loaded index that no other id is
    bound to, and for every embedding of the dimension of the index,
    [add_resume] of the id returns [True], replaces the entry of the id,
    appends the embedding and binds the id to its position; one more
    vector is counted and as many ids are listed; the embedding stored
    before stays at its position, and no id is bound to that position. *)
Theorem add_resume_again_orphans_the_old_vector {F : Float32} (w : World)
        (i : IndexFlatL2) (id txt : string) (v : Vector)
        (attrs : option Attributes) (p : Z) :
  _index (service w) = Some i ->
  Z.of_nat (length v) = d i ->
  dict_mem String.eqb id (_metadata (service w)) = true ->
  dict_get String.eqb id (_id_to_index (service w)) = Some p ->
  0 <= p < ntotal i ->
  (forall id', id' <> id ->
               dict_get String.eqb id' (_id_to_index (service w)) <> Some p) ->
  upserted w id txt v attrs.
Proof.
  intros Hi Hd Hm Hp Hr Hinj.
  destruct (add_resume_ok w i id txt v attrs Hi Hd) as [Hret Hs].
  set (i' := {| d := d i; xb := xb i ++ [v] |}) in *.
  assert (Hi' : _index (service (after (add_resume id txt v attrs) w)) = Some i')
    by now rewrite Hs.
  unfold upserted. cbv zeta. split; [exact Hret|]. split; [|split; [|split]].
  - rewrite Hs. cbn. apply (dict_get_set_same String.eqb String.eqb_spec).
  - exists i. rewrite Hs. cbn.
    rewrite (dict_get_set_same String.eqb String.eqb_spec). auto.
  - destruct (get_collection_stats_spec w i Hi) as [Hst _].
    destruct (get_collection_stats_spec _ i' Hi') as [Hst' _].
    destruct (list_all_resumes_spec w) as [Hl _].
    destruct (list_all_resumes_spec (after (add_resume id txt v attrs) w))
      as [Hl' _].
    do 4 eexists. repeat split; eauto.
    + cbn [total_items]. apply ntotal_add.
    + rewrite Hs. cbn [_metadata].
      now rewrite (dict_keys_set_mem String.eqb).
  - destruct (nth_error (xb i) (Z.to_nat p)) as [x|] eqn:Ex.
    + exists i, i', p, x. repeat split; auto; try lia.
      * subst i'. cbn [xb]. rewrite nth_error_app1; auto.
        apply nth_error_Some. congruence.
      * intros id'. rewrite Hs. cbn [_id_to_index].
        destruct (String.eqb_spec id id') as [Heq|Hne].
        -- subst id'. rewrite (dict_get_set_same String.eqb String.eqb_spec).
           intros H. inversion H. lia.
        -- rewrite (dict_get_set_other String.eqb String.eqb_spec) by auto.
           apply Hinj. congruence.
    + apply nth_error_None in Ex. unfold ntotal in Hr. lia.
Qed.

Lemma add_resume_again_orphans_the_old_vector_witness :
  upserted two_resumes "r1" "manager" (unit_vec 2) None.
Proof.
  apply (add_resume_again_orphans_the_old_vector two_resumes
           {| d := 384; xb := [unit_vec 0; unit_vec 1] |}
           "r1" "manager" (unit_vec 2) None 0);
    try (vm_compute; reflexivity).
  - cbn. lia.
  - intros id' Hne.
    change (_id_to_index (service two_resumes)) with [("r1", 0); ("r2", 1)].
    cbn [dict_get]. destruct (String.eqb_spec id' "r1") as [Heq|_].
    + now destruct Hne.
    + destruct (String.eqb id' "r2"); discriminate.
Defined.

(** ** What a search returns *)

Section SearchRanking.
Context {F : Float32}.

Lemma nearest_length_le (i : IndexFlatL2) (q : Vector) (k : Z) :
  (length (nearest i q k) <= Z.to_nat k)%nat.
Proof. unfold nearest. apply firstn_le_length. Qed.

(** [index.search] yields as many labels as it is asked for *)
Lemma labels_length (i : IndexFlatL2) (q : Vector) (k : Z) :
  length (labels i q k) = Z.to_nat k.
Proof.
  unfold labels. rewrite length_app, repeat_length.
  pose proof (nearest_length_le i q k). lia.
Qed.

Lemma in_range_keeps_all (i : IndexFlatL2) (q : Vector) :
  in_range i q -> filter reaches (candidates i q) = candidates i q.
Proof.
  intros Hr. apply forallb_filter_id. apply forallb_forall.
  intros c Hc. apply candidates_In in Hc.
  destruct Hc as (_ & x & Hx & Hd). unfold reaches. rewrite Hd.
  apply Hr. eapply nth_error_In; eauto.
Qed.

Lemma nearest_length (i : IndexFlatL2) (q : Vector) (k : Z) :
  in_range i q ->
  k <= ntotal i ->
  length (nearest i q k) = Z.to_nat k.
Proof.
  intros Hr Hk. unfold nearest. rewrite in_range_keeps_all by exact Hr.
  rewrite length_firstn.
  rewrite (Permutation_length (rank_perm _)).
  unfold candidates, enumerate.
  rewrite enumerate_from_length, length_map.
  unfold ntotal in Hk. lia.
Qed.

Lemma nearest_In_candidates (i : IndexFlatL2) (q : Vector) (k : Z) c :
  In c (nearest i q k) -> In c (candidates i q) /\ reaches c = true.
Proof.
  intros H. apply In_firstn in H.
  apply (Permutation_in _ (rank_perm _)) in H.
  now apply filter_In in H.
Qed.

Lemma StronglySorted_filter {A} (R : A -> A -> Prop) (f : A -> bool)
      (l : list A) :
  StronglySorted R l -> StronglySorted R (filter f l).
Proof.
  intros Hs. induction Hs as [|a l Hs IH Ha]; cbn; [constructor|].
  destruct (f a); auto. constructor; auto.
  rewrite Forall_forall in *. intros x Hx. apply filter_In in Hx.
  apply Ha. tauto.
Qed.

Lemma nearest_sorted (i : IndexFlatL2) (q : Vector) :
  let dists := kept_distances i q in
  (forall a b, In a dists -> In b dists ->
               fle a b = true \/ fle b a = true) ->
  (forall a b c, In a dists -> In b dists -> In c dists ->
                 fle a b = true -> fle b c = true -> fle a c = true) ->
  StronglySorted closer (rank (filter reaches (candidates i q))).
Proof.
  intros dists Htotal Htrans.
  apply (rank_sorted dists Htotal Htrans).
  - apply Forall_forall. intros c Hc. apply filter_In in Hc.
    destruct Hc as [Hc Hr]. apply candidates_In in Hc.
    destruct Hc as (_ & x & Hx & Hd). subst dists. unfold kept_distances.
    apply filter_In. split; [|exact Hr].
    rewrite Hd. apply in_map. eapply nth_error_In; eauto.
  - apply StronglySorted_filter, enumerate_from_increasing.
Qed.

(** a candidate that is kept and is outside the nearest ranks after
    each of them *)
Lemma nearest_optimal (i : IndexFlatL2) (q : Vector) (k : Z) c c' :
  StronglySorted closer (rank (filter reaches (candidates i q))) ->
  In c (nearest i q k) ->
  In c' (candidates i q) ->
  reaches c' = true ->
  ~ In c' (nearest i q k) ->
  closer c c'.
Proof.
  intros Hs Hc Hc' Hr Hout. unfold nearest in *.
  apply (StronglySorted_firstn_skipn closer (Z.to_nat k)
           (rank (filter reaches (candidates i q)))); auto.
  assert (Hin : In c' (rank (filter reaches (candidates i q)))).
  { apply (Permutation_in _ (Permutation_sym (rank_perm _))).
    apply filter_In. auto. }
  rewrite <- (firstn_skipn (Z.to_nat k)
                (rank (filter reaches (candidates i q)))) in Hin.
  apply in_app_or in Hin. tauto.
Qed.

(** the label -1 is kept by the loop of [search_resumes] when an id is
    bound to -1, and only then *)
Lemma padding_unbound (m : dict string Z) (x : float) (n : nat) :
  (forall id, ~ In (id, -1) m) ->
  filter (bound (invert m)) (repeat (-1, x) n) = [].
Proof.
  intros Hm. induction n as [|n IH]; cbn [repeat filter]; auto.
  unfold bound at 1. unfold dict_mem. cbn [fst].
  destruct (dict_get Z.eqb (-1) (invert m)) as [id|] eqn:E; auto.
  apply invert_get_In in E. now destruct (Hm id).
Qed.

Lemma bound_labels (m : dict string Z) (i : IndexFlatL2) (q : Vector)
      (k : Z) :
  (forall id, ~ In (id, -1) m) ->
  filter (bound (invert m)) (labels i q k) =
  filter (bound (invert m)) (nearest i q k).
Proof.
  intros Hm. unfold labels.
  now rewrite filter_app, padding_unbound, app_nil_r.
Qed.
End SearchRanking.

(** C4 (as stated, refuted).  A search returns exactly
    [min(n_results, count)] hits.  After "r1" has been added twice the
    index counts two vectors, and a search for two neighbours returns
    one hit: the nearer vector, at position 0 and distance 0, is bound
    to no id and is skipped. *)
Lemma search_resumes_skips_unbound_positions :
  let w := after (add_resume "r1" "manager" (unit_vec 1) None) one_resume in
  answer get_collection_stats w = Returned (stats_of 2) /\
  Z.min 2 2 = 2 /\
  answer (search_resumes (unit_vec 0) 2) w =
    Returned (Some {| ids := ["r1"]; distances := [2];
                      documents := ["manager"]; metadatas := [[]] |}).
Proof. by_computation. Qed.

(** C4 (amended).  For every query of the dimension of the loaded
    index and every [n_results] of at least 1, with [n] for
    [min(n_results, count)], on distances that the comparison orders:
    the index keeps the stored embeddings whose squared Euclidean
    distance to the query is below the largest finite float, and yields
    [n] labels: the positions of the [n] nearest of them by ascending
    distance, ties by ascending position, and then the label -1 for
    each that is missing of the [n].  The search returns, in that order,
    the labels that are bound to an id, each with its id, distance, text
    and attributes.  It returns at most [n] hits, and exactly [n] when
    no distance has overflowed and every one of the nearest positions is
    bound; on an empty index it returns the empty results, not an
    error. *)
Theorem search_resumes_returns_the_bound_nearest {F : Float32} (w : World)
        (i : IndexFlatL2) (q : Vector) (k : Z) :
  _index (service w) = Some i ->
  Z.of_nat (length q) = d i ->
  0 < k ->
  (forall a b, In a (kept_distances i q) -> In b (kept_distances i q) ->
               fle a b = true \/ fle b a = true) ->
  (forall a b c, In a (kept_distances i q) -> In b (kept_distances i q) ->
                 In c (kept_distances i q) ->
                 fle a b = true -> fle b c = true -> fle a c = true) ->
  let index_to_id := invert (_id_to_index (service w)) in
  let n := Z.min k (ntotal i) in
  let near := nearest i q n in
  let hits := filter (bound index_to_id) (labels i q n) in
  exists res,
    answer (search_resumes q k) w = Returned (Some res) /\
    (ntotal i = 0 -> res = empty_results) /\
    length (labels i q n) = Z.to_nat n /\
    (length near <= Z.to_nat n)%nat /\
    (in_range i q -> length near = Z.to_nat n) /\
    StronglySorted closer near /\
    (forall c, In c near ->
               0 <= fst c /\ reaches c = true /\
               exists x, nth_error (xb i) (Z.to_nat (fst c)) = Some x /\
                         snd c = fvec_L2sqr q x) /\
    (forall c c', In c near -> In c' (candidates i q) -> reaches c' = true ->
                  ~ In c' near -> closer c c') /\
    map Some (ids res) =
      map (fun c => dict_get Z.eqb (fst c) index_to_id) hits /\
    distances res = map snd hits /\
    documents res = map (text_of (_metadata (service w))) (ids res) /\
    metadatas res = map (metadata_of (_metadata (service w))) (ids res) /\
    (length (ids res) <= Z.to_nat n)%nat /\
    (in_range i q ->
     (forall c, In c near -> bound index_to_id c = true) ->
     length (ids res) = Z.to_nat n).
Proof.
  intros Hi Hq Hk Htotal Htrans index_to_id n near hits.
  pose proof (nearest_sorted i q Htotal Htrans) as Hsorted.
  pose proof (labels_length i q n) as Hlabels.
  pose proof (nearest_length_le i q n) as Hle.
  assert (Hfull : in_range i q -> length near = Z.to_nat n)
    by (intros Hr; apply nearest_length; [exact Hr|lia]).
  assert (Hfacts :
            StronglySorted closer near /\
            (forall c, In c near ->
                       0 <= fst c /\ reaches c = true /\
                       exists x, nth_error (xb i) (Z.to_nat (fst c)) = Some x /\
                                 snd c = fvec_L2sqr q x) /\
            (forall c c', In c near -> In c' (candidates i q) ->
                          reaches c' = true -> ~ In c' near -> closer c c')).
  { split; [|split].
    - apply StronglySorted_firstn, Hsorted.
    - intros c Hc. apply nearest_In_candidates in Hc.
      destruct Hc as [Hc Hr]. apply candidates_In in Hc. tauto.
    - intros c c'. apply nearest_optimal, Hsorted. }
  destruct Hfacts as (H1 & H2 & H3).
  destruct (Z.eq_dec (ntotal i) 0) as [Hn|Hn].
  - destruct (search_resumes_empty w i q k Hi Hn) as [Hret _].
    exists empty_results.
    assert (Hzero : Z.to_nat n = 0%nat) by (subst n; rewrite Hn; lia).
    assert (Hnil : labels i q n = []).
    { apply length_zero_iff_nil. now rewrite Hlabels. }
    split; [exact Hret|]. split; [auto|]. split; [exact Hlabels|].
    split; [exact Hle|]. split; [exact Hfull|].
    split; [exact H1|]. split; [exact H2|]. split; [exact H3|].
    subst hits. rewrite Hnil, Hzero. cbn. repeat split; auto.
  - destruct (search_resumes_ok w i q k Hi Hn Hq Hk) as [Hret _].
    subst hits index_to_id. fold n in Hret.
    destruct (collect_fold (invert (_id_to_index (service w)))
                           (_metadata (service w))
                           (labels i q n)
                           empty_results)
      as (new_ids & Hnew & Hids & Hdist & Hdoc & Hmeta).
    cbn [ids distances documents metadatas empty_results app] in *.
    eexists. split; [exact Hret|].
    rewrite Hids, Hdist, Hdoc, Hmeta.
    assert (Hlen : length new_ids =
                   length (filter (bound (invert (_id_to_index (service w))))
                                  (labels i q n))).
    { rewrite <- (length_map Some new_ids), Hnew. apply length_map. }
    split; [intros; congruence|]. split; [exact Hlabels|].
    split; [exact Hle|]. split; [exact Hfull|].
    split; [exact H1|]. split; [exact H2|]. split; [exact H3|].
    split; [exact Hnew|]. do 3 (split; [reflexivity|]).
    split.
    + rewrite Hlen, <- Hlabels. apply filter_length_le.
    + intros Hr Hall. rewrite Hlen. unfold labels. fold near.
      rewrite (Hfull Hr), Nat.sub_diag. cbn [repeat]. rewrite app_nil_r.
      rewrite forallb_filter_id; [exact (Hfull Hr)|].
      apply forallb_forall. exact Hall.
Qed.

Lemma search_resumes_returns_the_bound_nearest_witness :
  let w := two_resumes in
  let i := {| d := 384; xb := [unit_vec 0; unit_vec 1] |} in
  let q := unit_vec 0 in
  let k := 5 in
  let index_to_id := invert (_id_to_index (service w)) in
  let n := Z.min k (ntotal i) in
  let near := nearest i q n in
  let hits := filter (bound index_to_id) (labels i q n) in
  exists res,
    answer (search_resumes q k) w = Returned (Some res) /\
    (ntotal i = 0 -> res = empty_results) /\
    length (labels i q n) = Z.to_nat n /\
    (length near <= Z.to_nat n)%nat /\
    (in_range i q -> length near = Z.to_nat n) /\
    StronglySorted closer near /\
    (forall c, In c near ->
               0 <= fst c /\ reaches c = true /\
               exists x, nth_error (xb i) (Z.to_nat (fst c)) = Some x /\
                         snd c = fvec_L2sqr q x) /\
    (forall c c', In c near -> In c' (candidates i q) -> reaches c' = true ->
                  ~ In c' near -> closer c c') /\
    map Some (ids res) =
      map (fun c => dict_get Z.eqb (fst c) index_to_id) hits /\
    distances res = map snd hits /\
    documents res = map (text_of (_metadata (service w))) (ids res) /\
    metadatas res = map (metadata_of (_metadata (service w))) (ids res) /\
    (length (ids res) <= Z.to_nat n)%nat /\
    (in_range i q ->
     (forall c, In c near -> bound index_to_id c = true) ->
     length (ids res) = Z.to_nat n).
Proof.
  apply (search_resumes_returns_the_bound_nearest two_resumes
           {| d := 384; xb := [unit_vec 0; unit_vec 1] |} (unit_vec 0) 5).
  - vm_compute; reflexivity.
  - vm_compute; reflexivity.
  - lia.
  - intros a b _ _. cbn. lia.
  - intros a b c _ _ _. cbn. lia.
Defined.

(** ** Saving, then loading *)

(** X1.  On a disk that takes the writes, a mutation that returns [True]
    has saved exactly the fields it leaves: [initialize] after it (a
    restart) restores the index, the entries and the positions as they
    are in memory. *)
Theorem reload_restores_the_saved_fields {F : Float32} (op : Mutation)
        (w : World) :
  _index (service w) <> None ->
  index_writable (disk w) = true ->
  metadata_writable (disk w) = true ->
  answer (perform op) w = Returned true ->
  service (after initialize (after (perform op) w)) =
  service (after (perform op) w).
Proof.
  destruct w as [[[i|] m im] [fi fm wi wm xi xm] lg]; cbn;
    [|intros H; now destruct H].
  intros _ -> ->. destruct op as [id txt v attrs|id|]; cbn [perform].
  - unfold_py; cbn. unfold index_add.
    destruct (Z.of_nat (length v) =? d i); cbn; auto. discriminate.
  - unfold_py; cbn -[dict_mem].
    destruct (dict_mem String.eqb id m) eqn:Em; cbn -[dict_mem];
      [|discriminate].
    rewrite Em; cbn -[dict_mem].
    destruct (dict_mem String.eqb id im) eqn:Ei; cbn -[dict_mem]; auto.
    discriminate.
  - unfold_py; cbn. auto.
Qed.

Lemma reload_restores_the_saved_fields_witness :
  service (after initialize
                 (after (perform (Add "r2" "doctor" (unit_vec 1) None))
                        one_resume)) =
  service (after (perform (Add "r2" "doctor" (unit_vec 1) None)) one_resume).
Proof.
  apply (reload_restores_the_saved_fields
           (Add "r2" "doctor" (unit_vec 1) None) one_resume);
    vm_compute; (reflexivity || discriminate).
Defined.

(** what a mutation leaves of the files when the writes fail: a file
    that could not be opened is as it was, and a file that was opened
    by a mutation that went as far as saving is cut *)
Lemma perform_unwritable_files {F : Float32} (op : Mutation) (w : World) :
  _index (service w) <> None ->
  index_writable (disk w) = false ->
  metadata_writable (disk w) = false ->
  (index_fault (disk w) = AtOpen ->
   FAISS_INDEX_PATH (disk (after (perform op) w)) =
     FAISS_INDEX_PATH (disk w)) /\
  (metadata_fault (disk w) = AtOpen ->
   FAISS_METADATA_PATH (disk (after (perform op) w)) =
     FAISS_METADATA_PATH (disk w)) /\
  (answer (perform op) w = Returned true ->
   (index_fault (disk w) <> AtOpen ->
    FAISS_INDEX_PATH (disk (after (perform op) w)) = Malformed) /\
   (metadata_fault (disk w) <> AtOpen ->
    FAISS_METADATA_PATH (disk (after (perform op) w)) = Malformed)).
Proof.
  destruct w as [[[i|] m im] [fi fm wi wm xi xm] lg]; cbn;
    [|intros H; now destruct H].
  intros _ -> ->. destruct op as [id txt v attrs|id|]; cbn [perform].
  - unfold_py; cbn. unfold index_add.
    destruct (Z.of_nat (length v) =? d i); cbn;
      destruct xi, xm; cbn;
      repeat split; intros; try congruence; auto.
  - unfold_py; cbn -[dict_mem].
    destruct (dict_mem String.eqb id m) eqn:Em; cbn -[dict_mem];
      rewrite ?Em; cbn -[dict_mem];
      destruct (dict_mem String.eqb id im) eqn:Ei; cbn -[dict_mem];
      destruct xi, xm; cbn;
      repeat split; intros; try congruence; auto.
  - unfold_py; cbn.
    destruct xi, xm; cbn; repeat split; intros; try congruence; auto.
Qed.

(** X2.  On a disk where the writes fail, a mutation is lost at the
    next load ([initialize] after it, a restart).  From a file that
    could not be opened for writing, the load restores what it would
    have restored before the mutation.  A file that was opened has been
    cut: after a mutation that returned [True], the load restores
    nothing from it, and the fields it would fill start empty. *)
Theorem reload_forgets_an_unsaved_mutation {F : Float32} (op : Mutation)
        (w : World) :
  _index (service w) <> None ->
  index_writable (disk w) = false ->
  metadata_writable (disk w) = false ->
  let w' := after initialize (after (perform op) w) in
  (index_fault (disk w) = AtOpen ->
   _index (service w') = _index (service (after initialize w))) /\
  (metadata_fault (disk w) = AtOpen ->
   _metadata (service w') = _metadata (service (after initialize w)) /\
   _id_to_index (service w') = _id_to_index (service (after initialize w))) /\
  (answer (perform op) w = Returned true ->
   (index_fault (disk w) <> AtOpen ->
    _index (service w') = Some (new_IndexFlatL2 384)) /\
   (metadata_fault (disk w) <> AtOpen ->
    _metadata (service w') = [] /\ _id_to_index (service w') = [])).
Proof.
  intros Hi Hwi Hwm w'. subst w'.
  destruct (initialize_spec (after (perform op) w)) as (_ & -> & _).
  destruct (initialize_spec w) as (_ & -> & _).
  destruct (perform_unwritable_files op w Hi Hwi Hwm) as (H1 & H2 & H3).
  cbn [_index _metadata _id_to_index].
  unfold loaded_index, loaded_metadata, loaded_id_to_index.
  split; [|split].
  - intros Hx. now rewrite (H1 Hx).
  - intros Hx. now rewrite (H2 Hx).
  - intros Hret. destruct (H3 Hret) as [H4 H5]. split.
    + intros Hx. now rewrite (H4 Hx).
    + intros Hx. now rewrite (H5 Hx).
Qed.

Lemma reload_forgets_an_unsaved_mutation_witness :
  let op := Add "r1" "engineer" (unit_vec 0) None in
  let w := started_unwritable in
  let w' := after initialize (after (perform op) w) in
  (index_fault (disk w) = AtOpen ->
   _index (service w') = _index (service (after initialize w))) /\
  (metadata_fault (disk w) = AtOpen ->
   _metadata (service w') = _metadata (service (after initialize w)) /\
   _id_to_index (service w') = _id_to_index (service (after initialize w))) /\
  (answer (perform op) w = Returned true ->
   (index_fault (disk w) <> AtOpen ->
    _index (service w') = Some (new_IndexFlatL2 384)) /\
   (metadata_fault (disk w) <> AtOpen ->
    _metadata (service w') = [] /\ _id_to_index (service w') = [])).
Proof.
  apply (reload_forgets_an_unsaved_mutation
           (Add "r1" "engineer" (unit_vec 0) None) started_unwritable);
    vm_compute; (reflexivity || discriminate).
Defined.

(** X3.  [initialize] replaces the fields by what the files hold and
    writes nothing: what it leaves depends on the disk alone, and a
    second call changes neither the fields nor the disk. *)
Theorem initialize_is_idempotent {F : Float32} (w : World) :
  (forall w0, disk w0 = disk w ->
              service (after initialize w0) = service (after initialize w)) /\
  service (after initialize (after initialize w)) =
    service (after initialize w) /\
  disk (after initialize (after initialize w)) = disk w.
Proof.
  split; [|split].
  - intros w0 Hd.
    destruct (initialize_spec w0) as (_ & -> & _).
    destruct (initialize_spec w) as (_ & -> & _). now rewrite Hd.
  - destruct (initialize_spec (after initialize w)) as (_ & -> & _).
    destruct (initialize_spec w) as (_ & -> & ->). reflexivity.
  - destruct (initialize_spec (after initialize w)) as (_ & _ & ->).
    destruct (initialize_spec w) as (_ & _ & ->). reflexivity.
Qed.

(** ** Reading an entry back *)

Lemma dict_keys_del {K V} (eqb : K -> K -> bool) (k : K) (m : dict K V) :
  dict_keys (dict_del eqb k m) =
  filter (fun k' => negb (eqb k k')) (dict_keys m).
Proof.
  unfold dict_keys, dict_del. induction m as [|[k' v] m IH]; cbn; auto.
  destruct (eqb k k'); cbn; now rewrite IH.
Qed.

Lemma get_resume_spec {F : Float32} (w : World) (id : string) :
  answer (get_resume id) w =
    Returned match dict_get String.eqb id (_metadata (service w)) with
             | Some r => Some {| got_id := id;
                                 got_document := text r;
                                 got_metadata := metadata r |}
             | None => None
             end /\
  service (after (get_resume id) w) = service w /\
  disk (after (get_resume id) w) = disk w.
Proof.
  destruct w as [[i m im] dk lg]. unfold get_resume. unfold_py; cbn.
  destruct (dict_get String.eqb id m); cbn; auto.
Qed.

(** X4.  [get_resume] after a successful [add_resume] of the id returns
    the text and the attributes just given (the empty dictionary for
    [None]), and returns for every other id what it returned before. *)
Theorem get_resume_after_add_resume {F : Float32} (w : World)
        (i : IndexFlatL2) (id txt : string) (v : Vector)
        (attrs : option Attributes) :
  _index (service w) = Some i ->
  Z.of_nat (length v) = d i ->
  answer (get_resume id) (after (add_resume id txt v attrs) w) =
    Returned (Some {| got_id := id; got_document := txt;
                      got_metadata := or_empty attrs |}) /\
  forall id', id' <> id ->
              answer (get_resume id') (after (add_resume id txt v attrs) w) =
              answer (get_resume id') w.
Proof.
  intros Hi Hd. destruct (add_resume_ok w i id txt v attrs Hi Hd) as [_ Hs].
  split; [|intros id' Hne].
  - destruct (get_resume_spec (after (add_resume id txt v attrs) w) id)
      as (-> & _). rewrite Hs. cbn [_metadata].
    now rewrite (dict_get_set_same String.eqb String.eqb_spec).
  - destruct (get_resume_spec (after (add_resume id txt v attrs) w) id')
      as (-> & _). destruct (get_resume_spec w id') as (-> & _).
    rewrite Hs. cbn [_metadata].
    rewrite (dict_get_set_other String.eqb String.eqb_spec); auto.
Qed.

Lemma get_resume_after_add_resume_witness :
  answer (get_resume "r2")
         (after (add_resume "r2" "doctor" (unit_vec 1) None) one_resume) =
    Returned (Some {| got_id := "r2"; got_document := "doctor";
                      got_metadata := or_empty None |}) /\
  forall id', id' <> "r2" ->
              answer (get_resume id')
                     (after (add_resume "r2" "doctor" (unit_vec 1) None)
                            one_resume) =
              answer (get_resume id') one_resume.
Proof.
  apply (get_resume_after_add_resume one_resume
           {| d := 384; xb := [unit_vec 0] |} "r2" "doctor" (unit_vec 1) None);
    vm_compute; reflexivity.
Defined.

(** X5.  After a [delete_resume] that returns [True], [get_resume] of
    the id returns [None] and the id is not listed; every other id is
    read and listed as before. *)
Theorem get_resume_after_delete_resume {F : Float32} (w : World)
        (id : string) :
  answer (delete_resume id) w = Returned true ->
  let w' := after (delete_resume id) w in
  answer (get_resume id) w' = Returned None /\
  (forall id', id' <> id ->
               answer (get_resume id') w' = answer (get_resume id') w) /\
  answer list_all_resumes w' =
    Returned (filter (fun id' => negb (String.eqb id id'))
                     (dict_keys (_metadata (service w)))).
Proof.
  intros Hret w'. subst w'.
  assert (Hs : _metadata (service (after (delete_resume id) w)) =
               dict_del String.eqb id (_metadata (service w))).
  { destruct (dict_mem String.eqb id (_metadata (service w))) eqn:Em.
    - destruct (dict_mem String.eqb id (_id_to_index (service w))) eqn:Ei.
      + destruct (delete_resume_ok w id Em Ei) as [_ ->]. reflexivity.
      + destruct (delete_resume_unbound w id Em Ei) as [H _]. congruence.
    - destruct (delete_resume_absent w id Em) as [H _]. congruence. }
  split; [|split].
  - destruct (get_resume_spec (after (delete_resume id) w) id) as (-> & _).
    rewrite Hs. now rewrite (dict_get_del_same String.eqb).
  - intros id' Hne.
    destruct (get_resume_spec (after (delete_resume id) w) id') as (-> & _).
    destruct (get_resume_spec w id') as (-> & _). rewrite Hs.
    rewrite (dict_get_del_other String.eqb String.eqb_spec); auto.
  - destruct (list_all_resumes_spec (after (delete_resume id) w)) as [-> _].
    rewrite Hs. now rewrite dict_keys_del.
Qed.

Lemma get_resume_after_delete_resume_witness :
  let w' := after (delete_resume "r1") two_resumes in
  answer (get_resume "r1") w' = Returned None /\
  (forall id', id' <> "r1" ->
               answer (get_resume id') w' = answer (get_resume id') two_resumes) /\
  answer list_all_resumes w' =
    Returned (filter (fun id' => negb (String.eqb "r1" id'))
                     (dict_keys (_metadata (service two_resumes)))).
Proof.
  apply (get_resume_after_delete_resume two_resumes "r1").
  vm_compute; reflexivity.
Defined.

(** X6.  An entry without a position: [delete_resume] removes the entry
    and then fails on the position.  It returns [False] and logs the
    [KeyError], yet [get_resume] of the id returns [None] afterwards;
    the index and the positions are as before and nothing is saved. *)
Theorem delete_resume_fails_after_removing_the_entry {F : Float32}
        (w : World) (id : string) :
  dict_mem String.eqb id (_metadata (service w)) = true ->
  dict_mem String.eqb id (_id_to_index (service w)) = false ->
  let w' := after (delete_resume id) w in
  answer (delete_resume id) w = Returned false /\
  answer (get_resume id) w' = Returned None /\
  _index (service w') = _index (service w) /\
  _id_to_index (service w') = _id_to_index (service w) /\
  disk w' = disk w /\
  log w' = log w ++ [(LError, FailedDeleteResume KeyError)].
Proof.
  intros Hm Hi w'. subst w'.
  destruct (get_resume_spec (after (delete_resume id) w) id) as (-> & _).
  destruct (delete_resume_unbound w id Hm Hi) as [-> ->]. cbn.
  rewrite (dict_get_del_same String.eqb).
  repeat split; auto.
  - destruct w as [[i m im] dk lg]; cbn in *.
    unfold_py; cbn -[dict_mem]. rewrite Hm; cbn -[dict_mem].
    rewrite Hm; cbn -[dict_mem]. rewrite Hi. reflexivity.
  - destruct w as [[i m im] dk lg]; cbn in *.
    unfold_py; cbn -[dict_mem]. rewrite Hm; cbn -[dict_mem].
    rewrite Hm; cbn -[dict_mem]. rewrite Hi. reflexivity.
Qed.

Lemma delete_resume_fails_after_removing_the_entry_witness :
  let w := started_without_positions in
  let w' := after (delete_resume "r1") w in
  answer (delete_resume "r1") w = Returned false /\
  answer (get_resume "r1") w' = Returned None /\
  _index (service w') = _index (service w) /\
  _id_to_index (service w') = _id_to_index (service w) /\
  disk w' = disk w /\
  log w' = log w ++ [(LError, FailedDeleteResume KeyError)].
Proof.
  apply (delete_resume_fails_after_removing_the_entry
           started_without_positions "r1"); vm_compute; reflexivity.
Defined.

(** ** What the methods never do *)

(** a [try] whose handler returns lets no exception out *)
Lemma try_except_returns {F : Float32} {A} (m : Py A) (h : Exn -> Py A)
      (w : World) :
  (forall e w1, exists a, fst (h e w1) = Returned a) ->
  exists a, answer (try_except m h) w = Returned a.
Proof.
  intros Hh. unfold answer, try_except.
  destruct (m w) as [[a|e] w1]; cbn; eauto.
Qed.

(** X7.  No method of the service lets an exception out: in every
    state, with the index loaded or not, on every disk and for every
    argument, each of them returns. *)
Theorem no_method_raises {F : Float32} (w : World) (id txt : string)
        (v q : Vector) (attrs : option Attributes) (k : Z) :
  returns initialize w /\
  returns (add_resume id txt v attrs) w /\
  returns (search_resumes q k) w /\
  returns (delete_resume id) w /\
  returns (get_resume id) w /\
  returns get_collection_stats w /\
  returns clear_collection w /\
  returns list_all_resumes w.
Proof.
  unfold returns.
  repeat split; try (apply try_except_returns; intros e w1; cbn; eauto).
  exists tt. apply initialize_spec.
Qed.

(** X8.  Once the index is loaded, the reading methods change neither
    the fields nor the files, whatever they return. *)
Theorem readers_change_nothing {F : Float32} (w : World) (id : string)
        (q : Vector) (k : Z) :
  _index (service w) <> None ->
  reads_only (search_resumes q k) w /\
  reads_only (get_resume id) w /\
  reads_only get_collection_stats w /\
  reads_only list_all_resumes w.
Proof.
  destruct w as [[[i|] m im] dk lg]; cbn; [|intros H; now destruct H].
  intros _. unfold reads_only. repeat split.
  - unfold_py; cbn. destruct (ntotal i =? 0); cbn; auto.
    unfold index_search.
    destruct (negb (Z.of_nat (length q) =? d i)); cbn; auto.
    destruct (Z.min k (ntotal i) <=? 0); cbn; auto.
  - unfold_py; cbn. destruct (ntotal i =? 0); cbn; auto.
    unfold index_search.
    destruct (negb (Z.of_nat (length q) =? d i)); cbn; auto.
    destruct (Z.min k (ntotal i) <=? 0); cbn; auto.
  - apply get_resume_spec.
  - apply get_resume_spec.
Qed.

Lemma readers_change_nothing_witness :
  reads_only (search_resumes (unit_vec 0) 3) two_resumes /\
  reads_only (get_resume "r1") two_resumes /\
  reads_only get_collection_stats two_resumes /\
  reads_only list_all_resumes two_resumes.
Proof.
  apply (readers_change_nothing two_resumes "r1" (unit_vec 0) 3).
  vm_compute. discriminate.
Defined.

(** ** Searches that fail *)

(** X9.  A query of another dimension than the index: on an index that
    holds a vector the search returns [None] and logs the failed
    assertion; on an empty index the dimension is not looked at and the
    search returns the empty results. *)
Theorem search_resumes_of_another_dimension {F : Float32} (w : World)
        (i : IndexFlatL2) (q : Vector) (k : Z) :
  _index (service w) = Some i ->
  Z.of_nat (length q) <> d i ->
  (ntotal i = 0 ->
   answer (search_resumes q k) w = Returned (Some empty_results)) /\
  (ntotal i <> 0 ->
   answer (search_resumes q k) w = Returned None /\
   log (after (search_resumes q k) w) =
     log w ++ [(LError, SearchFailed AssertionError)]).
Proof.
  destruct w as [[i0 m im] dk lg]; cbn. intros -> Hq.
  apply Z.eqb_neq in Hq. split; intros Hn.
  - unfold_py; cbn. rewrite Hn. reflexivity.
  - apply Z.eqb_neq in Hn. unfold_py; cbn. rewrite Hn. cbn.
    unfold index_search. rewrite Hq. cbn. auto.
Qed.

Lemma search_resumes_of_another_dimension_witness :
  (ntotal {| d := 384; xb := [unit_vec 0] |} = 0 ->
   answer (search_resumes [1; 0] 1) one_resume
     = Returned (Some empty_results)) /\
  (ntotal {| d := 384; xb := [unit_vec 0] |} <> 0 ->
   answer (search_resumes [1; 0] 1) one_resume = Returned None /\
   log (after (search_resumes [1; 0] 1) one_resume) =
     log one_resume ++ [(LError, SearchFailed AssertionError)]).
Proof.
  apply (search_resumes_of_another_dimension one_resume
           {| d := 384; xb := [unit_vec 0] |} [1; 0] 1).
  - vm_compute; reflexivity.
  - vm_compute; discriminate.
Defined.

(** X10.  A search for no neighbour or for a negative number of them
    ([n_results] at most 0): on an index that holds a vector the clamped
    number fails the assertion of the index and the search returns
    [None]; on an empty index it returns the empty results. *)
Theorem search_resumes_for_no_neighbour {F : Float32} (w : World)
        (i : IndexFlatL2) (q : Vector) (k : Z) :
  _index (service w) = Some i ->
  k <= 0 ->
  (ntotal i = 0 ->
   answer (search_resumes q k) w = Returned (Some empty_results)) /\
  (ntotal i <> 0 ->
   answer (search_resumes q k) w = Returned None).
Proof.
  destruct w as [[i0 m im] dk lg]; cbn. intros -> Hk. split; intros Hn.
  - unfold_py; cbn. rewrite Hn. reflexivity.
  - apply Z.eqb_neq in Hn. unfold_py; cbn. rewrite Hn. cbn.
    unfold index_search.
    destruct (negb (Z.of_nat (length q) =? d i)); cbn; auto.
    assert (Hmin : (Z.min k (ntotal i) <=? 0) = true)
      by (apply Z.leb_le; lia).
    rewrite Hmin. reflexivity.
Qed.

Lemma search_resumes_for_no_neighbour_witness :
  (ntotal {| d := 384; xb := [unit_vec 0] |} = 0 ->
   answer (search_resumes (unit_vec 0) 0) one_resume
     = Returned (Some empty_results)) /\
  (ntotal {| d := 384; xb := [unit_vec 0] |} <> 0 ->
   answer (search_resumes (unit_vec 0) 0) one_resume = Returned None).
Proof.
  apply (search_resumes_for_no_neighbour one_resume
           {| d := 384; xb := [unit_vec 0] |} (unit_vec 0) 0).
  - vm_compute; reflexivity.
  - lia.
Defined.

(** ** Clearing *)

(** X11.  After [clear_collection], in every state and on every disk,
    the service is empty to every reader: no vector is counted, no id
    is listed, no entry is read, and every search returns the empty
    results; the fields are consistent. *)
Theorem clear_collection_empties_the_service {F : Float32} (w : World)
        (id : string) (q : Vector) (k : Z) :
  let w' := after clear_collection w in
  answer clear_collection w = Returned true /\
  answer get_collection_stats w' =
    Returned {| total_items := 0; dimension := Some 384;
                index_type := Some "IndexFlatL2" |} /\
  answer list_all_resumes w' = Returned [] /\
  answer (get_resume id) w' = Returned None /\
  answer (search_resumes q k) w' = Returned (Some empty_results) /\
  consistent (service w') = true.
Proof.
  cbv zeta. destruct (clear_collection_spec w) as [Hret Hs].
  assert (Hi : _index (service (after clear_collection w)) =
               Some (new_IndexFlatL2 384)) by now rewrite Hs.
  split; [exact Hret|]. split; [|split; [|split; [|split]]].
  - apply (get_collection_stats_spec _ _ Hi).
  - destruct (list_all_resumes_spec (after clear_collection w)) as [-> _].
    now rewrite Hs.
  - destruct (get_resume_spec (after clear_collection w) id) as (-> & _).
    now rewrite Hs.
  - apply (search_resumes_empty _ _ q k Hi). reflexivity.
  - apply clear_collection_consistent.
Qed.

(** ** The ids that a search returns *)

Section SearchIds.
Context {F : Float32}.

Lemma NoDup_map_In_inj {A B} (f : A -> B) (l : list A) (x y : A) :
  NoDup (map f l) -> In x l -> In y l -> f x = f y -> x = y.
Proof.
  induction l as [|a l IH]; cbn; [tauto|].
  intros Hnd. inversion Hnd as [|? ? Hnotin Hnd']; subst.
  intros [->|Hx] [->|Hy] Heq; auto.
  - exfalso. apply Hnotin. rewrite Heq. now apply in_map.
  - exfalso. apply Hnotin. rewrite <- Heq. now apply in_map.
Qed.

Lemma NoDup_firstn {A} (n : nat) (l : list A) :
  NoDup l -> NoDup (firstn n l).
Proof.
  intros H. rewrite <- (firstn_skipn n l) in H.
  eapply NoDup_app_remove_r; eauto.
Qed.

Lemma enumerate_from_NoDup {A} (l : list A) (n : Z) :
  NoDup (map fst (enumerate_from n l)).
Proof.
  revert n. induction l as [|a l IH]; intros n; cbn; constructor; auto.
  intros Hin. apply in_map_iff in Hin. destruct Hin as ([p x] & Hp & Hin).
  cbn in Hp. subst p. apply enumerate_from_In in Hin. lia.
Qed.

Lemma NoDup_map_filter {A B} (f : A -> B) (g : A -> bool) (l : list A) :
  NoDup (map f l) -> NoDup (map f (filter g l)).
Proof.
  induction l as [|a l IH]; cbn; auto.
  intros Hnd. inversion Hnd as [|? ? Hnotin Hnd']; subst.
  destruct (g a); cbn; auto. constructor; auto.
  intros Hin. apply Hnotin. apply in_map_iff in Hin.
  destruct Hin as (x & Hx & Hin). apply filter_In in Hin.
  rewrite <- Hx. apply in_map. tauto.
Qed.

(** the positions that [index.search] finds are distinct; the label -1
    may come several times after them *)
Lemma nearest_NoDup (i : IndexFlatL2) (q : Vector) (k : Z) :
  NoDup (map fst (nearest i q k)).
Proof.
  unfold nearest. rewrite <- firstn_map. apply NoDup_firstn.
  eapply Permutation_NoDup.
  - apply Permutation_map, Permutation_sym, rank_perm.
  - apply NoDup_map_filter, enumerate_from_NoDup.
Qed.

(** distinct positions stand for distinct ids *)
Lemma collected_ids_NoDup (m : dict string Z) (hits : list (Z * float))
      (new_ids : list string) :
  NoDup (dict_keys m) ->
  NoDup (map fst hits) ->
  map Some new_ids =
    map (fun c => dict_get Z.eqb (fst c) (invert m))
        (filter (bound (invert m)) hits) ->
  NoDup new_ids.
Proof.
  intros Hkeys Hhits Hnew.
  apply (NoDup_map_inv Some). rewrite Hnew.
  apply NoDup_map_NoDup_ForallPairs.
  - intros c c' Hc Hc' Heq.
    apply filter_In in Hc. destruct Hc as [Hc Hb].
    apply filter_In in Hc'. destruct Hc' as [Hc' _].
    unfold bound, dict_mem in Hb.
    destruct (dict_get Z.eqb (fst c) (invert m)) as [id|] eqn:E;
      [|discriminate].
    symmetry in Heq. apply invert_get_In in E, Heq.
    assert (Hp : (id, fst c) = (id, fst c')).
    { apply (NoDup_map_In_inj fst m); auto. }
    inversion Hp as [Hfst].
    apply (NoDup_map_In_inj fst hits); auto.
  - apply NoDup_filter. eapply NoDup_map_inv; eauto.
Qed.
End SearchIds.

(** X12.  With no id bound to the label -1, a search returns no id
    twice: the positions that the index finds are distinct, the label
    -1 that may follow them stands for no id, and (the keys of
    [_id_to_index] being distinct, as in every dictionary) no id stands
    for two positions. *)
Theorem search_resumes_returns_no_id_twice {F : Float32} (w : World)
        (i : IndexFlatL2) (q : Vector) (k : Z) (res : SearchResults) :
  _index (service w) = Some i ->
  NoDup (dict_keys (_id_to_index (service w))) ->
  (forall id, ~ In (id, -1) (_id_to_index (service w))) ->
  answer (search_resumes q k) w = Returned (Some res) ->
  NoDup (ids res).
Proof.
  intros Hi Hkeys Hlabel Hres.
  destruct (search_resumes_cases w i q k Hi) as [H|[H|H]];
    rewrite H in Hres; inversion Hres; subst res; clear Hres.
  - constructor.
  - destruct (collect_fold (invert (_id_to_index (service w)))
                           (_metadata (service w))
                           (labels i q (Z.min k (ntotal i)))
                           empty_results)
      as (new_ids & Hnew & Hids & _).
    rewrite Hids. cbn [ids empty_results app].
    rewrite bound_labels in Hnew by exact Hlabel.
    eapply collected_ids_NoDup; [exact Hkeys| |exact Hnew].
    apply nearest_NoDup.
Qed.

Lemma search_resumes_returns_no_id_twice_witness :
  NoDup (ids {| ids := ["r1"; "r2"]; distances := [0; 2];
                documents := ["engineer"; "doctor"];
                metadatas := [[]; []] |}).
Proof.
  apply (search_resumes_returns_no_id_twice two_resumes
           {| d := 384; xb := [unit_vec 0; unit_vec 1] |} (unit_vec 0) 2).
  - vm_compute; reflexivity.
  - vm_compute. repeat constructor; cbn; intuition discriminate.
  - change (_id_to_index (service two_resumes)) with [("r1", 0); ("r2", 1)].
    intros id [H|[H|[]]]; discriminate H.
  - vm_compute; reflexivity.
Defined.

(** ** Positions, as long as nothing is deleted *)

Section Positions.
Context {F : Float32}.

Lemma In_dict_set {V} (k k' : string) (v v' : V) (m : dict string V) :
  In (k', v') (dict_set String.eqb k v m) ->
  (k', v') = (k, v) \/ In (k', v') m.
Proof.
  induction m as [|[k0 v0] m IH]; cbn.
  - intros [H|[]]. left. congruence.
  - destruct (String.eqb_spec k k0) as [->|Hne]; cbn.
    + intros [H|H]; auto.
    + intros [H|H]; auto. destruct (IH H); auto.
Qed.

Lemma dict_set_keys_NoDup {V} (k : string) (v : V) (m : dict string V) :
  NoDup (dict_keys m) -> NoDup (dict_keys (dict_set String.eqb k v m)).
Proof.
  intros Hnd. destruct (dict_mem String.eqb k m) eqn:E.
  - now rewrite (dict_keys_set_mem String.eqb).
  - rewrite (dict_set_fresh String.eqb k v m E). unfold dict_keys in *.
    rewrite map_app. cbn. apply NoDup_app; auto.
    + repeat constructor. cbn. tauto.
    + intros x Hx [Heq|[]]. subst x.
      apply (dict_mem_keys String.eqb String.eqb_spec) in Hx. congruence.
Qed.

Lemma dict_set_values_NoDup (k : string) (v : Z) (m : dict string Z) :
  NoDup (map snd m) ->
  (forall k' p, In (k', p) m -> p <> v) ->
  NoDup (map snd (dict_set String.eqb k v m)).
Proof.
  induction m as [|[k0 v0] m IH]; cbn; intros Hnd Hfresh.
  - repeat constructor. cbn. tauto.
  - inversion Hnd as [|? ? Hnotin Hnd']; subst.
    destruct (String.eqb k k0); cbn.
    + constructor; auto. intros Hin. apply in_map_iff in Hin.
      destruct Hin as ([k' p] & Hp & Hin). cbn in Hp. subst p.
      apply (Hfresh k' v); auto.
    + constructor.
      * intros Hin. apply in_map_iff in Hin.
        destruct Hin as ([k' p] & Hp & Hin). cbn in Hp. subst p.
        apply In_dict_set in Hin. destruct Hin as [Heq|Hin].
        -- inversion Heq; subst. apply (Hfresh k0 v); auto.
        -- apply Hnotin. change v0 with (snd (k', v0)). now apply in_map.
      * apply IH; auto. intros k' p Hin. apply (Hfresh k' p). auto.
Qed.

Lemma add_resume_tidy (w : World) id txt v attrs :
  positions_tidy (service w) ->
  positions_tidy (service (after (add_resume id txt v attrs) w)).
Proof.
  intros (Hkeys & Hvals & (i & Hi & Hrange) & Hcover).
  destruct (Z.eq_dec (Z.of_nat (length v)) (d i)) as [Hd|Hd].
  - destruct (add_resume_ok w i id txt v attrs Hi Hd) as [_ ->].
    unfold positions_tidy. cbn. split; [|split; [|split]].
    + now apply dict_set_keys_NoDup.
    + apply dict_set_values_NoDup; auto.
      intros k' p Hin. apply Hrange in Hin. lia.
    + exists {| d := d i; xb := xb i ++ [v] |}. split; [reflexivity|].
      intros id' p Hin. pose proof (ntotal_add i v) as Hn.
      apply In_dict_set in Hin. destruct Hin as [Heq|Hin].
      * inversion Heq; subst. unfold ntotal in *. lia.
      * apply Hrange in Hin. lia.
    + intros id' Hin. rewrite (dict_mem_set String.eqb String.eqb_spec) in Hin.
      rewrite (dict_mem_set String.eqb String.eqb_spec).
      apply orb_true_iff in Hin. apply orb_true_iff.
      destruct Hin as [Hin|Hin]; auto.
  - destruct (add_resume_mismatch w i id txt v attrs Hi Hd) as (_ & -> & _).
    unfold positions_tidy. eauto 10.
Qed.

Lemma run_call_tidy (w : World) (c : Call) :
  deletes c = false ->
  positions_tidy (service w) ->
  positions_tidy (service (run_call w c)).
Proof.
  intros Hc Ht. pose proof Ht as (_ & _ & (i & Hi & _) & _).
  destruct c as [[id txt v attrs|id|]|q k| |]; cbn in *; try discriminate.
  - now apply add_resume_tidy.
  - destruct (clear_collection_spec w) as [_ ->].
    unfold positions_tidy; cbn. repeat split; try constructor.
    + eexists. split; [reflexivity|]. intros id p [].
    + auto.
  - destruct (search_resumes_total w i q k Hi) as [_ ->]. exact Ht.
  - destruct (get_collection_stats_spec w i Hi) as [_ ->]. exact Ht.
  - replace (service w) with (service (after list_all_resumes w)) in Ht
      by now destruct (list_all_resumes_spec w) as [_ ->].
    exact Ht.
Qed.
End Positions.

(** X13.  As long as nothing is deleted, every id keeps a position of
    its own among the occupied ones: the calls other than
    [delete_resume] (adding, also of an id that is present or of an
    embedding of another dimension, clearing, searching, reading) keep
    the positions tidy. *)
Theorem positions_stay_tidy_without_delete {F : Float32} (w : World)
        (calls : list Call) :
  positions_tidy (service w) ->
  existsb deletes calls = false ->
  positions_tidy (service (run_calls calls w)).
Proof.
  revert w. induction calls as [|c calls IH]; intros w Ht Hc; cbn in *; auto.
  apply orb_false_iff in Hc. destruct Hc as [Hc Hcs].
  apply IH; auto. now apply run_call_tidy.
Qed.

Lemma positions_stay_tidy_without_delete_witness :
  positions_tidy
    (service (run_calls [Mutate (Add "r1" "engineer" (unit_vec 0) None);
                         Mutate (Add "r1" "manager" (unit_vec 1) None);
                         Search (unit_vec 0) 2;
                         Mutate (Add "r2" "doctor" [1; 0] None)]
                        started)).
Proof.
  apply (positions_stay_tidy_without_delete started).
  - unfold positions_tidy. vm_compute.
    split; [constructor|]. split; [constructor|].
    split; [|discriminate].
    eexists. split; [reflexivity|]. intros id p [].
  - reflexivity.
Defined.

(** X14.  With tidy positions, and no distance from the query to a
    stored embedding overflowed, a search for at least as many
    neighbours as the index holds vectors finds every listed id, each
    once. *)
Theorem full_search_finds_every_listed_id {F : Float32} (w : World)
        (i : IndexFlatL2) (q : Vector) (k : Z) :
  positions_tidy (service w) ->
  _index (service w) = Some i ->
  Z.of_nat (length q) = d i ->
  in_range i q ->
  0 < k ->
  ntotal i <= k ->
  exists res,
    answer (search_resumes q k) w = Returned (Some res) /\
    NoDup (ids res) /\
    forall id, In id (dict_keys (_metadata (service w))) -> In id (ids res).
Proof.
  intros (Hkeys & Hvals & (i0 & Hi0 & Hrange) & Hcover) Hi Hq Hin_range Hk Hall.
  rewrite Hi in Hi0. inversion Hi0; subst i0; clear Hi0.
  assert (Hlabel : forall id, ~ In (id, -1) (_id_to_index (service w))).
  { intros id Hid. apply Hrange in Hid. lia. }
  destruct (Z.eq_dec (ntotal i) 0) as [Hn|Hn].
  - destruct (search_resumes_empty w i q k Hi Hn) as [Hret _].
    exists empty_results. split; [exact Hret|]. split; [constructor|].
    intros id Hid. exfalso.
    apply (dict_mem_keys String.eqb String.eqb_spec) in Hid.
    apply Hcover in Hid. unfold dict_mem in Hid.
    destruct (dict_get String.eqb id (_id_to_index (service w)))
      as [p|] eqn:E; [|discriminate].
    apply (dict_get_In String.eqb String.eqb_spec) in E.
    apply Hrange in E. lia.
  - destruct (search_resumes_ok w i q k Hi Hn Hq Hk) as [Hret _].
    destruct (collect_fold (invert (_id_to_index (service w)))
                           (_metadata (service w))
                           (labels i q (Z.min k (ntotal i)))
                           empty_results)
      as (new_ids & Hnew & Hids & _).
    rewrite bound_labels in Hnew by exact Hlabel.
    eexists. split; [exact Hret|]. rewrite Hids.
    cbn [ids empty_results app]. split.
    + eapply collected_ids_NoDup; [exact Hkeys| |exact Hnew].
      apply nearest_NoDup.
    + intros id Hid.
      apply (dict_mem_keys String.eqb String.eqb_spec) in Hid.
      apply Hcover in Hid. unfold dict_mem in Hid.
      destruct (dict_get String.eqb id (_id_to_index (service w)))
        as [p|] eqn:E; [|discriminate].
      apply (dict_get_In String.eqb String.eqb_spec) in E.
      pose proof (Hrange id p E) as Hp.
      assert (Hbound : dict_get Z.eqb p (invert (_id_to_index (service w)))
                       = Some id).
      { pose proof (invert_mem _ p id E) as Hm. unfold dict_mem in Hm.
        destruct (dict_get Z.eqb p (invert (_id_to_index (service w))))
          as [id0|] eqn:E0; [|discriminate].
        apply invert_get_In in E0. f_equal.
        assert (Heq : (id0, p) = (id, p)).
        { apply (NoDup_map_In_inj snd (_id_to_index (service w))); auto. }
        congruence. }
      destruct (nth_error (xb i) (Z.to_nat p)) as [x|] eqn:Ex.
      2:{ apply nth_error_None in Ex. unfold ntotal in Hp. lia. }
      assert (Hcand : In (p, fvec_L2sqr q x) (nearest i q (Z.min k (ntotal i)))).
      { unfold nearest. replace (Z.min k (ntotal i)) with (ntotal i) by lia.
        rewrite in_range_keeps_all by exact Hin_range.
        rewrite firstn_all2.
        - apply (Permutation_in _ (Permutation_sym (rank_perm _))).
          unfold candidates, enumerate. apply enumerate_from_In.
          split; [lia|]. rewrite Z.sub_0_r, nth_error_map, Ex. reflexivity.
        - rewrite (Permutation_length (rank_perm _)).
          unfold candidates, enumerate.
          rewrite enumerate_from_length, length_map. unfold ntotal. lia. }
      assert (Hkept : In (p, fvec_L2sqr q x)
                         (filter (bound (invert (_id_to_index (service w))))
                                 (nearest i q (Z.min k (ntotal i))))).
      { apply filter_In. split; auto. unfold bound, dict_mem. cbn [fst].
        now rewrite Hbound. }
      apply (in_map (fun c => dict_get Z.eqb (fst c)
                                (invert (_id_to_index (service w))))) in Hkept.
      cbn [fst] in Hkept. rewrite Hbound, <- Hnew in Hkept.
      apply in_map_iff in Hkept. destruct Hkept as (id1 & Heq & Hin).
      congruence.
Qed.

Lemma full_search_finds_every_listed_id_witness :
  exists res,
    answer (search_resumes (unit_vec 1) 10) two_resumes
      = Returned (Some res) /\
    NoDup (ids res) /\
    forall id, In id (dict_keys (_metadata (service two_resumes))) ->
               In id (ids res).
Proof.
  apply (full_search_finds_every_listed_id two_resumes
           {| d := 384; xb := [unit_vec 0; unit_vec 1] |} (unit_vec 1) 10).
  - unfold positions_tidy.
    change (_id_to_index (service two_resumes)) with [("r1", 0); ("r2", 1)].
    change (_metadata (service two_resumes))
      with [("r1", {| text := "engineer"; metadata := [] |});
            ("r2", {| text := "doctor"; metadata := [] |})].
    change (_index (service two_resumes))
      with (Some {| d := 384; xb := [unit_vec 0; unit_vec 1] |}).
    split; [|split; [|split]].
    + repeat constructor; cbn; intuition discriminate.
    + repeat constructor; cbn; intuition discriminate.
    + eexists. split; [reflexivity|].
      intros id p [H|[H|[]]]; inversion H; subst; cbn; lia.
    + intros id. unfold dict_mem. cbn.
      destruct (String.eqb id "r1"); auto.
      destruct (String.eqb id "r2"); auto.
  - vm_compute; reflexivity.
  - vm_compute; reflexivity.
  - intros x [<-|[<-|[]]]; vm_compute; reflexivity.
  - lia.
  - cbn. lia.
Defined.

(** ** The routes *)

Section Routes.
Context {F : Float32}.

Lemma generate_embedding_spec (a : App) (text : string) :
  reply (EmbeddingService.generate_embedding text) a
    = Done (generated a text) /\
  faiss (left_by (EmbeddingService.generate_embedding text) a) = faiss a /\
  model (left_by (EmbeddingService.generate_embedding text) a) = model a /\
  router_log (left_by (EmbeddingService.generate_embedding text) a)
    = router_log a.
Proof.
  destruct a as [w [m|] el rl]; unfold generated; unfold_ep; cbn; auto.
  destruct (encode m text); cbn; auto.
Qed.

Lemma route_answers_or_refuses {A} (body : Ep A) (a : App) :
  (exists x, reply (routers.route body) a = Done x) \/
  refused (reply (routers.route body) a).
Proof.
  unfold refused. unfold_ep. destruct (body a) as [[x|e] a']; cbn; eauto.
Qed.
End Routes.

(** X15.  A route returns its body or raises an [HTTPException] of
    status 400: no other exception and no other status leaves a route,
    whatever the state of the index, of the disk and of the model. *)
Theorem routes_answer_or_refuse_with_400 {F : Float32} (a : App)
        (text id : string) (attrs : option Attributes) (k : Z) :
  ((exists x, reply (routers.generate_embedding text) a = Done x) \/
   refused (reply (routers.generate_embedding text) a)) /\
  ((exists x, reply (routers.search_resumes text k) a = Done x) \/
   refused (reply (routers.search_resumes text k) a)) /\
  ((exists x, reply (routers.add_resume id text attrs) a = Done x) \/
   refused (reply (routers.add_resume id text attrs) a)) /\
  ((exists x, reply routers.get_stats a = Done x) \/
   refused (reply routers.get_stats a)) /\
  (exists x, reply routers.get_model_info a = Done x).
Proof.
  repeat split; try apply route_answers_or_refuses.
  unfold_ep; cbn; eauto.
Qed.

(** X16.  Without an embedding (the model is not loaded, or it raises,
    or it returns an empty list) the routes that need one refuse the
    request with status 400 and leave the index, the entries, the
    positions and the files untouched; the detail is the text of the
    exception raised inside the route. *)
Theorem routes_refuse_without_an_embedding {F : Float32} (a : App)
        (text id : string) (attrs : option Attributes) (k : Z) :
  routers.not_embedding (generated a text) = true ->
  reply (routers.generate_embedding text) a =
    Threw (HTTPException 400
             (Str (HTTPException 400
                     (Literal "Failed to generate embedding")))) /\
  reply (routers.search_resumes text k) a =
    Threw (HTTPException 400
             (Str (HTTPException 400
                     (Literal "Failed to generate query embedding")))) /\
  reply (routers.add_resume id text attrs) a =
    Threw (HTTPException 400
             (Str (HTTPException 400
                     (Literal "Failed to generate embedding")))) /\
  faiss (left_by (routers.generate_embedding text) a) = faiss a /\
  faiss (left_by (routers.search_resumes text k) a) = faiss a /\
  faiss (left_by (routers.add_resume id text attrs) a) = faiss a.
Proof.
  destruct a as [w [m|] el rl]; unfold generated; cbn [model];
    [destruct (encode m text) as [[|x v]|e] eqn:E|]; cbn;
    try discriminate; intros _;
    unfold_ep; cbn; rewrite ?E; cbn; auto 10.
Qed.

Lemma routes_refuse_without_an_embedding_witness :
  let a := imported None in
  reply (routers.generate_embedding "engineer") a =
    Threw (HTTPException 400
             (Str (HTTPException 400
                     (Literal "Failed to generate embedding")))) /\
  reply (routers.search_resumes "engineer" 10) a =
    Threw (HTTPException 400
             (Str (HTTPException 400
                     (Literal "Failed to generate query embedding")))) /\
  reply (routers.add_resume "r1" "engineer" None) a =
    Threw (HTTPException 400
             (Str (HTTPException 400
                     (Literal "Failed to generate embedding")))) /\
  faiss (left_by (routers.generate_embedding "engineer") a) = faiss a /\
  faiss (left_by (routers.search_resumes "engineer" 10) a) = faiss a /\
  faiss (left_by (routers.add_resume "r1" "engineer" None) a) = faiss a.
Proof.
  apply (routes_refuse_without_an_embedding (imported None)
           "engineer" "r1" None 10).
  reflexivity.
Defined.

Section RouteFacts.
Context {F : Float32}.

(** the route [add_resume] with an embedding: the call of the service,
    and the answer made of what it returns *)
Lemma add_route_spec (a : App) (id text : string)
      (attrs : option Attributes) (v : Vector) :
  generated a text = Some v ->
  routers.not_embedding (Some v) = false ->
  faiss (left_by (routers.add_resume id text attrs) a) =
    after (add_resume id text v attrs) (faiss a) /\
  reply (routers.add_resume id text attrs) a =
    match answer (add_resume id text v attrs) (faiss a) with
    | Returned true =>
        Done {| routers.add_status := "success";
                routers.resume_id := id;
                routers.message := "Resume added successfully" |}
    | Returned false =>
        Threw (HTTPException 400
                 (Str (HTTPException 400 (Literal "Failed to add resume"))))
    | Raised e => Threw (HTTPException 400 (Str (Builtin e)))
    end.
Proof.
  destruct a as [w [m|] el rl]; unfold generated; cbn [model];
    [|discriminate].
  destruct (encode m text) as [v0|e] eqn:E; [|discriminate].
  intros Hv Hne. inversion Hv; subst v0. destruct v as [|x v]; [discriminate|].
  unfold answer, after. unfold_ep; cbn. rewrite E. cbn.
  destruct (add_resume id text (x :: v) attrs w) as [[[|]|e] w']; cbn; auto.
Qed.

Lemma search_route_spec (a : App) (text : string) (k : Z) (v : Vector) :
  generated a text = Some v ->
  routers.not_embedding (Some v) = false ->
  faiss (left_by (routers.search_resumes text k) a) =
    after (search_resumes v k) (faiss a) /\
  reply (routers.search_resumes text k) a =
    match answer (search_resumes v k) (faiss a) with
    | Returned (Some results) =>
        Done {| routers.search_status := "success";
                routers.query := text;
                routers.results_count := length (ids results);
                routers.results_ids := ids results;
                routers.results_documents := documents results;
                routers.results_distances := distances results |}
    | Returned None =>
        Threw (HTTPException 400
                 (Str (HTTPException 400 (Literal "Search failed"))))
    | Raised e => Threw (HTTPException 400 (Str (Builtin e)))
    end.
Proof.
  destruct a as [w [m|] el rl]; unfold generated; cbn [model];
    [|discriminate].
  destruct (encode m text) as [v0|e] eqn:E; [|discriminate].
  intros Hv Hne. inversion Hv; subst v0. destruct v as [|x v]; [discriminate|].
  unfold answer, after. unfold_ep; cbn. rewrite E. cbn.
  destruct (search_resumes (x :: v) k w) as [[[r|]|e] w']; cbn; auto.
Qed.

(** the lists of a search have one length, at most the number asked for *)
Lemma search_resumes_lengths (w : World) (i : IndexFlatL2) q k res :
  _index (service w) = Some i ->
  answer (search_resumes q k) w = Returned (Some res) ->
  length (documents res) = length (ids res) /\
  length (distances res) = length (ids res) /\
  length (metadatas res) = length (ids res) /\
  (ntotal i <> 0 -> Z.of_nat (length (ids res)) <= Z.min k (ntotal i)).
Proof.
  intros Hi Hres.
  destruct (search_resumes_cases w i q k Hi) as [H|[H|H]];
    rewrite H in Hres; inversion Hres; subst res; clear Hres.
  - cbn. repeat split; auto. intros Hn.
    assert (0 <= ntotal i) by (unfold ntotal; lia).
    destruct (Z.leb_spec (Z.min k (ntotal i)) 0) as [Hle|Hgt]; [|lia].
    exfalso. destruct w as [[i0 m im] dk lg]; cbn in Hi; subst i0.
    apply Z.eqb_neq in Hn. revert H. unfold_py; cbn. rewrite Hn. cbn.
    unfold index_search.
    destruct (negb (Z.of_nat (length q) =? d i)); cbn; [discriminate|].
    apply Z.leb_le in Hle. rewrite Hle. cbn. discriminate.
  - destruct (collect_fold (invert (_id_to_index (service w)))
                           (_metadata (service w))
                           (labels i q (Z.min k (ntotal i)))
                           empty_results)
      as (new_ids & Hnew & Hids & Hdist & Hdoc & Hmeta).
    cbn [ids distances documents metadatas empty_results app] in *.
    rewrite Hids, Hdist, Hdoc, Hmeta.
    assert (Hlen : length new_ids =
                   length (filter (bound (invert (_id_to_index (service w))))
                                  (labels i q (Z.min k (ntotal i))))).
    { rewrite <- (length_map Some new_ids), Hnew. apply length_map. }
    rewrite !length_map. repeat split; auto. intros Hn.
    pose proof (filter_length_le (bound (invert (_id_to_index (service w))))
                                 (labels i q (Z.min k (ntotal i)))) as Hle.
    pose proof (labels_length i q (Z.min k (ntotal i))) as Hnl.
    destruct (Z.leb_spec (Z.min k (ntotal i)) 0) as [Hneg|Hposi]; [|lia].
    exfalso. destruct w as [[i0 m im] dk lg]; cbn in Hi; subst i0.
    apply Z.eqb_neq in Hn. revert H. unfold_py; cbn. rewrite Hn. cbn.
    unfold index_search.
    destruct (negb (Z.of_nat (length q) =? d i)); cbn; [discriminate|].
    apply Z.leb_le in Hneg. rewrite Hneg. cbn. discriminate.
Qed.
End RouteFacts.

(** X17.  The route [add_resume] with a non-empty embedding of the
    text: when the embedding has the dimension of the index the route
    answers success, the embedding is appended to the index and the
    text and attributes of the request are read back under the id;
    otherwise the route refuses with status 400 and the fields are as
    before. *)
Theorem add_route_stores_the_resume {F : Float32} (a : App)
        (i : IndexFlatL2) (id text : string) (attrs : option Attributes)
        (v : Vector) :
  generated a text = Some v ->
  routers.not_embedding (Some v) = false ->
  _index (service (faiss a)) = Some i ->
  let w' := faiss (left_by (routers.add_resume id text attrs) a) in
  (Z.of_nat (length v) = d i ->
   reply (routers.add_resume id text attrs) a =
     Done {| routers.add_status := "success";
             routers.resume_id := id;
             routers.message := "Resume added successfully" |} /\
   _index (service w') = Some {| d := d i; xb := xb i ++ [v] |} /\
   answer (get_resume id) w' =
     Returned (Some {| got_id := id; got_document := text;
                       got_metadata := or_empty attrs |})) /\
  (Z.of_nat (length v) <> d i ->
   reply (routers.add_resume id text attrs) a =
     Threw (HTTPException 400
              (Str (HTTPException 400 (Literal "Failed to add resume")))) /\
   service w' = service (faiss a)).
Proof.
  intros Hg Hne Hi w'. subst w'.
  destruct (add_route_spec a id text attrs v Hg Hne) as [-> ->].
  split; intros Hd.
  - destruct (add_resume_ok (faiss a) i id text v attrs Hi Hd) as [Hret Hs].
    rewrite Hret. split; [reflexivity|]. split.
    + now rewrite Hs.
    + destruct (get_resume_spec (after (add_resume id text v attrs) (faiss a)) id)
        as (-> & _). rewrite Hs. cbn [_metadata].
      now rewrite (dict_get_set_same String.eqb String.eqb_spec).
  - destruct (add_resume_mismatch (faiss a) i id text v attrs Hi Hd)
      as (Hret & Hs & _).
    rewrite Hret. auto.
Qed.

Lemma add_route_stores_the_resume_witness :
  let a := imported (Some toy_model) in
  let w' := faiss (left_by (routers.add_resume "r1" "engineer" None) a) in
  (Z.of_nat (length (unit_vec 0)) = 384 ->
   reply (routers.add_resume "r1" "engineer" None) a =
     Done {| routers.add_status := "success";
             routers.resume_id := "r1";
             routers.message := "Resume added successfully" |} /\
   _index (service w') = Some {| d := 384; xb := [] ++ [unit_vec 0] |} /\
   answer (get_resume "r1") w' =
     Returned (Some {| got_id := "r1"; got_document := "engineer";
                       got_metadata := or_empty None |})) /\
  (Z.of_nat (length (unit_vec 0)) <> 384 ->
   reply (routers.add_resume "r1" "engineer" None) a =
     Threw (HTTPException 400
              (Str (HTTPException 400 (Literal "Failed to add resume")))) /\
   service w' = service (faiss a)).
Proof.
  apply (add_route_stores_the_resume (imported (Some toy_model))
           {| d := 384; xb := [] |} "r1" "engineer" None (unit_vec 0));
    vm_compute; reflexivity.
Defined.

(** X18.  The route [search_resumes] with a non-empty embedding of the
    query: on an empty index it answers success with no result; on an
    index that holds a vector, for an embedding of its dimension and
    [n_results] of at least 1, it answers success with the query, with
    lists of ids, documents and distances of one length, which is
    [results_count] and at most [min(n_results, total)]; for an
    embedding of another dimension or [n_results] of at most 0 it
    refuses with status 400.  The fields of the service are never
    changed. *)
Theorem search_route_answers {F : Float32} (a : App) (i : IndexFlatL2)
        (text : string) (k : Z) (v : Vector) :
  generated a text = Some v ->
  routers.not_embedding (Some v) = false ->
  _index (service (faiss a)) = Some i ->
  service (faiss (left_by (routers.search_resumes text k) a)) =
    service (faiss a) /\
  (ntotal i = 0 ->
   reply (routers.search_resumes text k) a =
     Done {| routers.search_status := "success";
             routers.query := text;
             routers.results_count := 0;
             routers.results_ids := [];
             routers.results_documents := [];
             routers.results_distances := [] |}) /\
  (ntotal i <> 0 -> Z.of_nat (length v) = d i -> 0 < k ->
   exists body,
     reply (routers.search_resumes text k) a = Done body /\
     routers.query body = text /\
     length (routers.results_ids body) = routers.results_count body /\
     length (routers.results_documents body) = routers.results_count body /\
     length (routers.results_distances body) = routers.results_count body /\
     Z.of_nat (routers.results_count body) <= Z.min k (ntotal i)) /\
  (ntotal i <> 0 -> Z.of_nat (length v) <> d i \/ k <= 0 ->
   reply (routers.search_resumes text k) a =
     Threw (HTTPException 400
              (Str (HTTPException 400 (Literal "Search failed"))))).
Proof.
  intros Hg Hne Hi.
  destruct (search_route_spec a text k v Hg Hne) as [-> ->].
  split; [apply (search_resumes_total _ i v k Hi)|].
  split; [|split].
  - intros Hn. destruct (search_resumes_empty (faiss a) i v k Hi Hn) as [-> _].
    reflexivity.
  - intros Hn Hd Hk.
    destruct (search_resumes_ok (faiss a) i v k Hi Hn Hd Hk) as [Hret _].
    destruct (search_resumes_lengths (faiss a) i v k _ Hi Hret)
      as (H1 & H2 & _ & H4).
    rewrite Hret. eexists. split; [reflexivity|]. cbn.
    repeat split; auto.
  - intros Hn Hbad.
    assert (Hnone : answer (search_resumes v k) (faiss a) = Returned None).
    { destruct (faiss a) as [[i0 m im] dk lg]; cbn in Hi; subst i0.
      apply Z.eqb_neq in Hn. unfold_py; cbn. rewrite Hn. cbn.
      unfold index_search.
      destruct (Z.of_nat (length v) =? d i) eqn:Ed; cbn; auto.
      apply Z.eqb_eq in Ed. destruct Hbad as [Hbad|Hbad]; [congruence|].
      assert (Hmin : (Z.min k (ntotal i) <=? 0) = true)
        by (apply Z.leb_le; lia).
      rewrite Hmin. reflexivity. }
    now rewrite Hnone.
Qed.

Lemma search_route_answers_witness :
  let a := {| faiss := two_resumes; model := Some toy_model;
              embedding_log := []; router_log := [] |} in
  let i := {| d := 384; xb := [unit_vec 0; unit_vec 1] |} in
  let text := "engineer" in
  let k := 1 in
  let v := unit_vec 0 in
  service (faiss (left_by (routers.search_resumes text k) a)) =
    service (faiss a) /\
  (ntotal i = 0 ->
   reply (routers.search_resumes text k) a =
     Done {| routers.search_status := "success";
             routers.query := text;
             routers.results_count := 0;
             routers.results_ids := [];
             routers.results_documents := [];
             routers.results_distances := [] |}) /\
  (ntotal i <> 0 -> Z.of_nat (length v) = d i -> 0 < k ->
   exists body,
     reply (routers.search_resumes text k) a = Done body /\
     routers.query body = text /\
     length (routers.results_ids body) = routers.results_count body /\
     length (routers.results_documents body) = routers.results_count body /\
     length (routers.results_distances body) = routers.results_count body /\
     Z.of_nat (routers.results_count body) <= Z.min k (ntotal i)) /\
  (ntotal i <> 0 -> Z.of_nat (length v) <> d i \/ k <= 0 ->
   reply (routers.search_resumes text k) a =
     Threw (HTTPException 400
              (Str (HTTPException 400 (Literal "Search failed"))))).
Proof.
  apply (search_route_answers
           {| faiss := two_resumes; model := Some toy_model;
              embedding_log := []; router_log := [] |}
           {| d := 384; xb := [unit_vec 0; unit_vec 1] |}
           "engineer" 1 (unit_vec 0)); vm_compute; reflexivity.
Defined.

(** ** What a deletion leaves *)

Section Renumber.
Context {F : Float32}.

Lemma renumber_fold_fresh (meta : dict string MetadataRecord) (n : Z)
      (acc : dict string Z) :
  NoDup (dict_keys meta) ->
  (forall id, In id (dict_keys meta) -> dict_mem String.eqb id acc = false) ->
  fold_left (fun new_id_to_index entry =>
               let '(idx, (resume_id, resume_data)) := entry in
               dict_set String.eqb resume_id idx new_id_to_index)
            (enumerate_from n meta) acc =
  acc ++ map (fun e => (fst (snd e), fst e)) (enumerate_from n meta).
Proof.
  revert n acc. induction meta as [|[k r] meta IH]; intros n acc Hnd Hfresh.
  - cbn. now rewrite app_nil_r.
  - cbn in Hnd. inversion Hnd as [|? ? Hnotin Hnd']; subst.
    cbn [enumerate_from fold_left map fst snd].
    rewrite (dict_set_fresh String.eqb k n acc) by (apply Hfresh; now left).
    rewrite IH; auto.
    + now rewrite <- app_assoc.
    + intros id Hid. unfold dict_mem.
      destruct (dict_get String.eqb id (acc ++ [(k, n)])) eqn:E; auto.
      exfalso. apply (dict_get_In String.eqb String.eqb_spec) in E.
      apply in_app_or in E. destruct E as [E|[E|[]]].
      * apply In_dict_mem in E. rewrite Hfresh in E; [discriminate|].
        now right.
      * inversion E; subst. contradiction.
Qed.

(** the positions after a rebuild: the entries numbered in their order *)
Lemma renumber_enumerates (meta : dict string MetadataRecord) :
  NoDup (dict_keys meta) ->
  renumber meta = map (fun e => (fst (snd e), fst e)) (enumerate meta).
Proof.
  intros Hnd. unfold renumber, enumerate.
  now rewrite renumber_fold_fresh.
Qed.

Lemma dict_del_keys_NoDup {V} (k : string) (m : dict string V) :
  NoDup (dict_keys m) -> NoDup (dict_keys (dict_del String.eqb k m)).
Proof. intros H. rewrite dict_keys_del. now apply NoDup_filter. Qed.
End Renumber.

(** X19.  A [delete_resume] that returns [True] leaves an index without
    any vector, whatever remains listed: no vector is counted, every
    search returns the empty results, and the ids that remain (their
    keys being distinct, as in every dictionary) are bound to the
    positions 0, 1, ... in the order in which they are listed. *)
Theorem delete_resume_empties_the_index {F : Float32} (w : World)
        (id : string) (q : Vector) (k : Z) :
  answer (delete_resume id) w = Returned true ->
  NoDup (dict_keys (_metadata (service w))) ->
  let w' := after (delete_resume id) w in
  answer get_collection_stats w' =
    Returned {| total_items := 0; dimension := Some 384;
                index_type := Some "IndexFlatL2" |} /\
  answer (search_resumes q k) w' = Returned (Some empty_results) /\
  _id_to_index (service w') =
    map (fun e => (fst (snd e), fst e)) (enumerate (_metadata (service w'))).
Proof.
  intros Hret Hnd w'. subst w'.
  assert (Hs : service (after (delete_resume id) w) =
               {| _index := Some (new_IndexFlatL2 384);
                  _metadata := dict_del String.eqb id (_metadata (service w));
                  _id_to_index :=
                    renumber (dict_del String.eqb id (_metadata (service w))) |}).
  { destruct (dict_mem String.eqb id (_metadata (service w))) eqn:Em.
    - destruct (dict_mem String.eqb id (_id_to_index (service w))) eqn:Ei.
      + apply (delete_resume_ok w id Em Ei).
      + destruct (delete_resume_unbound w id Em Ei) as [H _]. congruence.
    - destruct (delete_resume_absent w id Em) as [H _]. congruence. }
  assert (Hi : _index (service (after (delete_resume id) w)) =
               Some (new_IndexFlatL2 384)) by now rewrite Hs.
  split; [|split].
  - apply (get_collection_stats_spec _ _ Hi).
  - apply (search_resumes_empty _ _ q k Hi). reflexivity.
  - rewrite Hs. cbn [_id_to_index _metadata].
    apply renumber_enumerates. now apply dict_del_keys_NoDup.
Qed.

Lemma delete_resume_empties_the_index_witness :
  let w' := after (delete_resume "r1") two_resumes in
  answer get_collection_stats w' =
    Returned {| total_items := 0; dimension := Some 384;
                index_type := Some "IndexFlatL2" |} /\
  answer (search_resumes (unit_vec 1) 2) w' = Returned (Some empty_results) /\
  _id_to_index (service w') =
    map (fun e => (fst (snd e), fst e)) (enumerate (_metadata (service w'))).
Proof.
  apply (delete_resume_empties_the_index two_resumes "r1" (unit_vec 1) 2).
  - vm_compute; reflexivity.
  - vm_compute. repeat constructor; cbn; intuition discriminate.
Defined.

(** X20.  The route [get_stats] never refuses: it answers success with
    the statistics of the service, and with a loaded index these count
    the vectors of the index and the fields are left as they were. *)
Theorem get_stats_route_always_answers {F : Float32} (a : App) :
  exists st,
    reply routers.get_stats a =
      Done {| routers.stats_status := "success"; routers.stats := st |} /\
    forall i, _index (service (faiss a)) = Some i ->
              st = {| total_items := ntotal i; dimension := Some 384;
                      index_type := Some "IndexFlatL2" |} /\
              service (faiss (left_by routers.get_stats a)) =
                service (faiss a).
Proof.
  assert (Hst : exists st, answer get_collection_stats (faiss a) = Returned st).
  { apply try_except_returns. intros e w1. cbn. eauto. }
  destruct Hst as [st Hst]. exists st. split.
  - unfold answer in Hst. unfold_ep.
    destruct (get_collection_stats (faiss a)) as [o w']. cbn in Hst.
    subst o. reflexivity.
  - intros i Hi.
    destruct (get_collection_stats_spec (faiss a) i Hi) as [Hret Hs].
    split; [congruence|].
    unfold after in Hs. unfold_ep.
    destruct (get_collection_stats (faiss a)) as [[st'|e] w']; cbn in *;
      exact Hs.
Qed.
